(** * agents-templates: the two sample command-line tools

    A shallow embedding of

    - [examples/cli-sample/git-stats.py]: repository statistics computed
      from the output of three [git] invocations, and
    - [examples/python-sample/data_processor.py]: conversion of a CSV file
      into a JSON document,

    together with the properties their specification states about them.

    Conventions of the model.

    - Text is a [string] of 8-bit characters; a character is its code
      point, so code points above U+00FF and the decoding of files and of
      subprocess output are outside the model.
    - An exception is a value of [Py.exn]; a computation that may raise
      returns a [Py.result].
    - The parts of the Python standard library the programs call
      ([str.strip], [str.split], [set], [int], [json.dump], [pathlib.Path],
      text-mode file iteration, [csv.DictReader]) are modelled after
      CPython 3.11 and later on a POSIX system, with the default arguments
      the programs leave unchanged. *)

From Stdlib Require Import Ascii.
From stdpp Require Import gmap strings list fin_maps pretty.

Open Scope string_scope.

(** ** Python built-ins *)

Module Py.

Inductive exn : Type :=
| FileNotFoundError (msg : string)
| ValueError (msg : string)
| RuntimeError (msg : string)
| CsvError (msg : string)
| IsADirectoryError (msg : string).

Inductive result (A : Type) : Type :=
| Ok (a : A)
| Raise (e : exn).
Arguments Ok {A} a.
Arguments Raise {A} e.

Global Instance result_ret : MRet result := fun _ a => Ok a.
Global Instance result_bind : MBind result := fun _ _ f m =>
  match m with
  | Ok a => f a
  | Raise e => Raise e
  end.

Definition LF : ascii := "010"%char.
Definition CR : ascii := "013"%char.
Definition nl : string := String LF "".

(** [ch.isspace()] for one character, on the code points of the model:
    U+0009..U+000D, U+001C..U+001F, U+0020, U+0085 and U+00A0. *)
Definition isspace (c : ascii) : bool :=
  let n := nat_of_ascii c in
  (((9 <=? n) && (n <=? 13)) || ((28 <=? n) && (n <=? 31))
   || (n =? 32) || (n =? 133) || (n =? 160))%nat.

(** [s.lstrip()], [s.rstrip()] and [s.strip()] without argument. *)
Fixpoint lstrip (s : string) : string :=
  match s with
  | "" => ""
  | String c s' => if isspace c then lstrip s' else s
  end.

Fixpoint rstrip (s : string) : string :=
  match s with
  | "" => ""
  | String c s' =>
      match rstrip s' with
      | "" => if isspace c then "" else String c ""
      | r => String c r
      end
  end.

Definition strip (s : string) : string := lstrip (rstrip s).

(** [s.split(sep)] for a separator of one character: the pieces between
    the separators, empty pieces included; never the empty list. *)
Fixpoint split (sep : ascii) (s : string) : list string :=
  match s with
  | "" => [""]
  | String c s' =>
      if Ascii.eqb c sep then "" :: split sep s'
      else match split sep s' with
           | [] => [String c ""]
           | w :: ws => String c w :: ws
           end
  end.

(** [sep.join(l)]. *)
Fixpoint join (sep : string) (l : list string) : string :=
  match l with
  | [] => ""
  | [x] => x
  | x :: l' => x +:+ sep +:+ join sep l'
  end.

(** [s * n]. *)
Fixpoint repeat_str (s : string) (n : nat) : string :=
  match n with
  | O => ""
  | S n' => s +:+ repeat_str s n'
  end.

(** A [dict]: the items in insertion order, no key twice.
    [dict_set k v d] is [d[k] = v]: the value of a key already there is
    replaced in place, a new key goes last. *)
Section Dict.
Context {K V : Type} `{EqDecision K}.

Fixpoint dict_set (k : K) (v : V) (d : list (K * V)) : list (K * V) :=
  match d with
  | [] => [(k, v)]
  | (k', v') :: d' =>
      if decide (k' = k) then (k', v) :: d' else (k', v') :: dict_set k v d'
  end.

Fixpoint dict_get (k : K) (d : list (K * V)) : option V :=
  match d with
  | [] => None
  | (k', v') :: d' => if decide (k' = k) then Some v' else dict_get k d'
  end.

(** [dict(pairs)]. *)
Definition dict_of (pairs : list (K * V)) : list (K * V) :=
  foldl (fun d kv => dict_set (fst kv) (snd kv) d) [] pairs.
End Dict.

(** Reading a file opened in text mode with the default [newline=None]:
    a carriage return is read as a line feed, and a line feed that
    comes right after a carriage return is dropped.  [after_cr] tells
    that the character before was a carriage return. *)
Fixpoint translate_newlines_from (after_cr : bool) (s : string) : string :=
  match s with
  | "" => ""
  | String c s' =>
      if Ascii.eqb c CR then String LF (translate_newlines_from true s')
      else if Ascii.eqb c LF && after_cr then translate_newlines_from false s'
      else String c (translate_newlines_from false s')
  end.

Definition translate_newlines (s : string) : string :=
  translate_newlines_from false s.

(** The lines a text stream yields when iterated: every line keeps its
    line feed, only the last one may lack it, and empty text has no
    line. *)
Fixpoint iter_lines (s : string) : list string :=
  match s with
  | "" => []
  | String c s' =>
      if Ascii.eqb c LF then nl :: iter_lines s'
      else match iter_lines s' with
           | [] => [String c ""]
           | l :: ls => String c l :: ls
           end
  end.

Definition readlines (content : string) : list string :=
  iter_lines (translate_newlines content).

(** [str(i)] for an [int]. *)
Definition str_of_int (i : Z) : string := pretty i.

(** [print(s)] writes [s] and a line feed to standard output; the model
    returns the text written. *)
Definition print (s : string) : string := s +:+ nl.

End Py.

(** ** [json.dumps(obj, indent=2)] *)

Module Json.

#[local] Set Warnings "-register-all".

(** The values the two programs serialise.  A [dict] is the list of its
    items in iteration order, its keys already converted to strings
    (the encoder writes the key [None] as [null]). *)
Inductive value : Type :=
| JNull
| JInt (i : Z)
| JStr (s : string)
| JList (l : list value)
| JDict (items : list (string * value)).

Definition DQUOTE : ascii := "034"%char.

Definition hex_digit (n : nat) : ascii :=
  match String.get n "0123456789abcdef" with
  | Some c => c
  | None => "0"%char
  end.

(** One character under [ensure_ascii=True]: the short escapes, then
    [\uXXXX] for everything outside U+0020..U+007E. *)
Definition escape_char (c : ascii) : string :=
  let n := nat_of_ascii c in
  if (n =? 34)%nat then String "\"%char (String DQUOTE "")
  else if (n =? 92)%nat then "\\"
  else if (n =? 8)%nat then "\b"
  else if (n =? 9)%nat then "\t"
  else if (n =? 10)%nat then "\n"
  else if (n =? 12)%nat then "\f"
  else if (n =? 13)%nat then "\r"
  else if ((32 <=? n) && (n <=? 126))%nat then String c ""
  else "\u00" +:+ String (hex_digit (n / 16)) (String (hex_digit (n mod 16)) "").

Fixpoint escape_body (s : string) : string :=
  match s with
  | "" => ""
  | String c s' => escape_char c +:+ escape_body s'
  end.

Definition encode_str (s : string) : string :=
  String DQUOTE (escape_body s +:+ String DQUOTE "").

Definition indent : nat := 2.

(** The line break and the indentation that open a nesting level. *)
Definition newline_indent (level : nat) : string :=
  Py.nl +:+ Py.repeat_str " " (indent * level).

(** The encoder.  With an [indent] the item separator is a comma alone
    and the key separator a colon and a space; empty containers are
    written [[]] and [{}]. *)
Fixpoint encode (level : nat) (v : value) : string :=
  match v with
  | JNull => "null"
  | JInt i => Py.str_of_int i
  | JStr s => encode_str s
  | JList [] => "[]"
  | JList l =>
      "[" +:+ newline_indent (S level)
      +:+ Py.join ("," +:+ newline_indent (S level)) (map (encode (S level)) l)
      +:+ newline_indent level +:+ "]"
  | JDict [] => "{}"
  | JDict items =>
      "{" +:+ newline_indent (S level)
      +:+ Py.join ("," +:+ newline_indent (S level))
            (map (fun kv => encode_str (fst kv) +:+ ": " +:+ encode (S level) (snd kv))
                 items)
      +:+ newline_indent level +:+ "}"
  end.

Definition dumps (v : value) : string := encode 0 v.

End Json.

(** ** [git-stats.py] *)

Module GitStats.

(** What [subprocess.run(..., capture_output=True, text=True)] returns. *)
Record CompletedProcess : Type := {
  returncode : Z;
  stdout : string
}.

(** The dictionary [main] builds and hands to [display_stats]. *)
Record StatsRecord : Type := {
  commits : Z;
  authors : Z;
  branches : Z
}.

Section Git.

(** The environment: running a command line yields a completed
    process. *)
Variable subprocess_run : list string -> CompletedProcess.

Definition get_author_count (repo_path : string) : Py.result nat :=
  let result := subprocess_run ["git"; "-C"; repo_path; "log"; "--format=%ae"] in
  if bool_decide (returncode result ≠ 0%Z) then
    Py.Raise (Py.RuntimeError "Failed to get author information")
  else
    let authors : gset string :=
      list_to_set (Py.split Py.LF (Py.strip (stdout result))) in
    Py.Ok (size authors).

Definition get_branch_count (repo_path : string) : Py.result nat :=
  let result := subprocess_run ["git"; "-C"; repo_path; "branch"; "-a"] in
  if bool_decide (returncode result ≠ 0%Z) then
    Py.Raise (Py.RuntimeError "Failed to get branch information")
  else
    let branches :=
      map Py.strip
          (filter (fun line => Py.strip line ≠ "")
                  (Py.split Py.LF (stdout result))) in
    Py.Ok (length branches).

End Git.

Definition stats_json (stats : StatsRecord) : Json.value :=
  Json.JDict [("commits", Json.JInt (commits stats));
              ("authors", Json.JInt (authors stats));
              ("branches", Json.JInt (branches stats))].

(** [display_stats] returns the text it prints. *)
Definition display_stats (stats : StatsRecord) (output_format : string) : string :=
  if bool_decide (output_format = "json") then
    Py.print (Json.dumps (stats_json stats))
  else
    Py.print "Git Repository Statistics"
    +:+ Py.print (Py.repeat_str "=" 40)
    +:+ Py.print ("Commits:  " +:+ Py.str_of_int (commits stats))
    +:+ Py.print ("Authors:  " +:+ Py.str_of_int (authors stats))
    +:+ Py.print ("Branches: " +:+ Py.str_of_int (branches stats)).

End GitStats.

(** ** [pathlib.Path], POSIX flavour *)

Module PathLib.

(** A parsed path: the root (empty, one slash or two slashes) and the
    components, empty components and single dots dropped. *)
Record Path : Type := {
  root : string;
  parts : list string
}.

Fixpoint leading_slashes (s : string) : nat :=
  match s with
  | String "/" s' => S (leading_slashes s')
  | _ => 0
  end.

Definition parse (s : string) : Path :=
  {| root := match leading_slashes s with
             | 0 => ""
             | 2 => "//"
             | _ => "/"
             end;
     parts := filter (fun x => x ≠ "" ∧ x ≠ ".") (Py.split "/" s) |}.

(** [str(p)]. *)
Definition str (p : Path) : string :=
  match root p, parts p with
  | "", [] => "."
  | r, ps => r +:+ Py.join "/" ps
  end.

(** [p.name]: the last component, empty when there is none. *)
Definition name (p : Path) : string := List.last (parts p) "".

(** [s.rfind(c)]; [None] stands for -1. *)
Fixpoint rfind (c : ascii) (s : string) : option nat :=
  match s with
  | "" => None
  | String a s' =>
      match rfind c s' with
      | Some i => Some (S i)
      | None => if Ascii.eqb a c then Some 0 else None
      end
  end.

(** [p.suffix], as in CPython up to 3.13: the name from its last dot on,
    when that dot is neither the first nor the last character of the
    name. *)
Definition suffix (p : Path) : string :=
  let name := name p in
  match rfind "." name with
  | Some i =>
      if ((0 <? i) && (i <? String.length name - 1))%nat
      then String.substring i (String.length name - i) name
      else ""
  | None => ""
  end.

End PathLib.

(** ** The [csv] module, dialect [excel] *)

Module Csv.

(** The dialect a reader gets by default: the comma as delimiter, the
    double quote as quote character, [doublequote] on, no escape
    character, [skipinitialspace] and [strict] off, [QUOTE_MINIMAL].  The
    branches of the parser that only other dialects reach are left
    out. *)
Definition delimiter : ascii := ","%char.
Definition quotechar : ascii := "034"%char.

(** [csv.field_size_limit()], which neither program changes: the reader
    raises [csv.Error] when a field would become longer. *)
Definition field_limit : N := 131072.

Inductive ParserState : Type :=
| START_RECORD
| START_FIELD
| IN_FIELD
| IN_QUOTED_FIELD
| QUOTE_IN_QUOTED_FIELD
| EAT_CRNL.

Global Instance ParserState_eq_dec : EqDecision ParserState.
Proof. solve_decision. Defined.

(** The reader object: [field] is the buffer of the field being read,
    last character first, and [field_len] its length. *)
Record ReaderObj : Type := {
  state : ParserState;
  fields : list string;
  field : list ascii;
  field_len : N
}.

(** What the parser is fed: a character of the line, or the end-of-line
    mark that follows each line. *)
Inductive input : Type :=
| Chr (c : ascii)
| EOL.

Definition set_state (st : ParserState) (self : ReaderObj) : ReaderObj :=
  {| state := st; fields := fields self;
     field := field self; field_len := field_len self |}.

Definition parse_reset : ReaderObj :=
  {| state := START_RECORD; fields := []; field := []; field_len := 0 |}.

Definition parse_save_field (self : ReaderObj) : ReaderObj :=
  {| state := state self;
     fields := fields self ++ [String.string_of_list_ascii (rev (field self))];
     field := [];
     field_len := 0 |}.

Definition parse_add_char (self : ReaderObj) (c : ascii) : Py.result ReaderObj :=
  if (field_limit <=? field_len self)%N then
    Py.Raise (Py.CsvError "field larger than field limit (131072)")
  else
    Py.Ok {| state := state self; fields := fields self;
             field := c :: field self; field_len := field_len self + 1 |}.

Definition is_crnl (c : ascii) : bool := Ascii.eqb c Py.LF || Ascii.eqb c Py.CR.

(** The case [START_FIELD], which [START_RECORD] falls through to. *)
Definition start_field (self : ReaderObj) (c : input) : Py.result ReaderObj :=
  match c with
  | EOL => Py.Ok (set_state START_RECORD (parse_save_field self))
  | Chr ch =>
      if is_crnl ch then Py.Ok (set_state EAT_CRNL (parse_save_field self))
      else if Ascii.eqb ch quotechar then Py.Ok (set_state IN_QUOTED_FIELD self)
      else if Ascii.eqb ch delimiter then Py.Ok (parse_save_field self)
      else self' ← parse_add_char self ch; Py.Ok (set_state IN_FIELD self')
  end.

Definition parse_process_char (self : ReaderObj) (c : input) : Py.result ReaderObj :=
  match state self with
  | START_RECORD =>
      match c with
      | EOL => Py.Ok self
      | Chr ch =>
          if is_crnl ch then Py.Ok (set_state EAT_CRNL self)
          else start_field (set_state START_FIELD self) c
      end
  | START_FIELD => start_field self c
  | IN_FIELD =>
      match c with
      | EOL => Py.Ok (set_state START_RECORD (parse_save_field self))
      | Chr ch =>
          if is_crnl ch then Py.Ok (set_state EAT_CRNL (parse_save_field self))
          else if Ascii.eqb ch delimiter then
            Py.Ok (set_state START_FIELD (parse_save_field self))
          else parse_add_char self ch
      end
  | IN_QUOTED_FIELD =>
      match c with
      | EOL => Py.Ok self
      | Chr ch =>
          if Ascii.eqb ch quotechar then Py.Ok (set_state QUOTE_IN_QUOTED_FIELD self)
          else parse_add_char self ch
      end
  | QUOTE_IN_QUOTED_FIELD =>
      match c with
      | EOL => Py.Ok (set_state START_RECORD (parse_save_field self))
      | Chr ch =>
          if Ascii.eqb ch quotechar then
            self' ← parse_add_char self ch; Py.Ok (set_state IN_QUOTED_FIELD self')
          else if Ascii.eqb ch delimiter then
            Py.Ok (set_state START_FIELD (parse_save_field self))
          else if is_crnl ch then
            Py.Ok (set_state EAT_CRNL (parse_save_field self))
          else self' ← parse_add_char self ch; Py.Ok (set_state IN_FIELD self')
      end
  | EAT_CRNL =>
      match c with
      | EOL => Py.Ok (set_state START_RECORD self)
      | Chr ch =>
          if is_crnl ch then Py.Ok self
          else Py.Raise (Py.CsvError
                 "new-line character seen in unquoted field - do you need to open the file with newline=''?")
      end
  end.

(** One line of input: its characters, then the end-of-line mark. *)
Fixpoint parse_line (self : ReaderObj) (lineobj : string) : Py.result ReaderObj :=
  match lineobj with
  | "" => parse_process_char self EOL
  | String c rest => self' ← parse_process_char self (Chr c); parse_line self' rest
  end.

(** [list(csv.reader(input_iter))], one record per call of the reader's
    [__next__].  A call starts from [parse_reset] and takes lines until
    the parser is back in [START_RECORD]; [self] is the parser inside
    the current call.  At the end of the input a call that holds a
    started field, or is inside a quoted one, still returns its record;
    otherwise the iteration stops. *)
Fixpoint reader_rows (self : ReaderObj) (input_iter : list string)
  : Py.result (list (list string)) :=
  match input_iter with
  | [] =>
      if negb (field_len self =? 0)%N || bool_decide (state self = IN_QUOTED_FIELD)
      then Py.Ok [fields (parse_save_field self)]
      else Py.Ok []
  | lineobj :: rest =>
      self' ← parse_line self lineobj;
      if bool_decide (state self' = START_RECORD) then
        rows ← reader_rows parse_reset rest; Py.Ok (fields self' :: rows)
      else reader_rows self' rest
  end.

Definition reader (input_iter : list string) : Py.result (list (list string)) :=
  reader_rows parse_reset input_iter.

(** A value of a row: a string, [None] (the default [restval]) or the
    list of the values beyond the header.  A key of a row: a column
    name, or [None] (the default [restkey]). *)
Inductive cell : Type :=
| Str (s : string)
| NoneVal
| Rest (l : list string).

Definition Row : Type := list (option string * cell).

(** The dictionary [DictReader.__next__] builds from a record. *)
Definition DictReader_row (fieldnames row : list string) : Row :=
  let d := Py.dict_of (zip (Some <$> fieldnames) (Str <$> row)) in
  let lf := length fieldnames in
  let lr := length row in
  if (lf <? lr)%nat then Py.dict_set None (Rest (drop lf row)) d
  else if (lr <? lf)%nat then
    foldl (fun d key => Py.dict_set (Some key) NoneVal d) d (drop lr fieldnames)
  else d.

(** [list(csv.DictReader(f))]: the first record, empty or not, gives the
    field names; every later record that is not empty gives a row. *)
Definition DictReader (input_iter : list string) : Py.result (list Row) :=
  rows ← reader input_iter;
  match rows with
  | [] => Py.Ok []
  | fieldnames :: rest =>
      Py.Ok (DictReader_row fieldnames <$> filter (fun row => row ≠ []) rest)
  end.

End Csv.

(** ** [data_processor.py] *)

Module DataProcessor.

(** The world the converter runs in: the regular files, each under the
    [str] of its path with its text; the directories, each under the
    [str] of its path with the message of the error the system raises
    when it is opened as a file; and the messages handed to the logger.
    Every regular file is text that can be read and decoded, and
    writing the output file, with the creation of its parents, is taken
    to succeed; a file is known by one spelling of its path. *)
Record World : Type := {
  files : gmap string string;
  dirs : gmap string string;
  log : list string
}.

(** A computation that reads and changes the world and may raise. *)
Definition M (A : Type) : Type := World -> Py.result A * World.

Definition ret {A} (a : A) : M A := fun w => (Py.Ok a, w).

Definition bind {A B} (m : M A) (k : A -> M B) : M B := fun w =>
  match m w with
  | (Py.Ok a, w') => k a w'
  | (Py.Raise e, w') => (Py.Raise e, w')
  end.

Definition raise {A} (e : Py.exn) : M A := fun w => (Py.Raise e, w).

(** A pure computation that may raise, run inside [M]. *)
Definition lift {A} (r : Py.result A) : M A := fun w => (r, w).

Global Instance M_ret : MRet M := @ret.
Global Instance M_bind : MBind M := fun _ _ k m => bind m k.

(** [p.exists()]. *)
Definition path_exists (p : PathLib.Path) : M bool := fun w =>
  (Py.Ok (bool_decide (is_Some (files w !! PathLib.str p)
                       \/ is_Some (dirs w !! PathLib.str p))), w).

(** [with p.open('r') as f], the lines [f] yields. *)
Definition open_read (p : PathLib.Path) : M (list string) := fun w =>
  match files w !! PathLib.str p with
  | Some content => (Py.Ok (Py.readlines content), w)
  | None =>
      match dirs w !! PathLib.str p with
      | Some msg => (Py.Raise (Py.IsADirectoryError msg), w)
      | None => (Py.Raise (Py.FileNotFoundError (PathLib.str p)), w)
      end
  end.

(** [p.parent.mkdir(parents=True, exist_ok=True)], which touches no
    file, and [with p.open('w') as f: f.write(text)]: the file holds
    [text] and nothing else afterwards. *)
Definition open_write (p : PathLib.Path) (text : string) : M unit := fun w =>
  (Py.Ok (), {| files := <[PathLib.str p := text]> (files w);
                dirs := dirs w; log := log w |}).

(** [logger.info(msg)]. *)
Definition logger_info (msg : string) : M unit := fun w =>
  (Py.Ok (), {| files := files w; dirs := dirs w; log := log w ++ [msg] |}).

(** The dictionary [process_csv] returns, with its keys ['data'],
    ['count'] and ['source']. *)
Record ConversionResult : Type := {
  data : list Csv.Row;
  count : nat;
  source : string
}.

Definition cell_json (c : Csv.cell) : Json.value :=
  match c with
  | Csv.Str s => Json.JStr s
  | Csv.NoneVal => Json.JNull
  | Csv.Rest l => Json.JList (Json.JStr <$> l)
  end.

Definition key_json (k : option string) : string :=
  match k with
  | Some s => s
  | None => "null"
  end.

Definition row_json (row : Csv.Row) : Json.value :=
  Json.JDict ((fun kv => (key_json (fst kv), cell_json (snd kv))) <$> row).

Definition result_json (result : ConversionResult) : Json.value :=
  Json.JDict [("data", Json.JList (row_json <$> data result));
              ("count", Json.JInt (Z.of_nat (count result)));
              ("source", Json.JStr (source result))].

(** [if output_file:] holds for a string that is not empty. *)
Definition truthy (output_file : option string) : option string :=
  match output_file with
  | Some "" => None
  | o => o
  end.

Definition process_csv (input_file : string) (output_file : option string)
  : M ConversionResult :=
  let input_path := PathLib.parse input_file in
  found ← path_exists input_path;
  if negb found then
    raise (Py.FileNotFoundError ("Input file '" +:+ input_file +:+ "' not found"))
  else if negb (bool_decide (PathLib.suffix input_path = ".csv")) then
    raise (Py.ValueError "Input file must be a CSV file")
  else
    logger_info ("Processing " +:+ input_file);;
    f ← open_read input_path;
    data ← lift (Csv.DictReader f);
    let result := {| data := data;
                     count := length data;
                     source := PathLib.str input_path |} in
    match truthy output_file with
    | Some output_file =>
        let output_path := PathLib.parse output_file in
        open_write output_path (Json.dumps (result_json result));;
        logger_info ("Saved output to " +:+ output_file)
    | None => ret ()
    end;;
    ret result.

End DataProcessor.

(** ** [int(s)] *)

Module PyInt.

(** [sys.int_info.default_max_str_digits]: a longer run of digits makes
    [int] raise [ValueError]. *)
Definition max_str_digits : nat := 4300.

Definition digit_value (c : ascii) : option Z :=
  let n := nat_of_ascii c in
  if ((48 <=? n) && (n <=? 57))%nat then Some (Z.of_nat (n - 48)) else None.

(** The digits of a literal, read from the left: [acc] is the value and
    [digits] the number of the digits read so far.  An underscore may
    stand between two digits, never after another underscore nor at the
    end. *)
Fixpoint scan (acc : Z) (digits : nat) (prev_underscore : bool) (s : string)
  : option (Z * nat) :=
  match s with
  | "" => if prev_underscore then None else Some (acc, digits)
  | String c s' =>
      if Ascii.eqb c "_" then
        if prev_underscore then None else scan acc digits true s'
      else
        match digit_value c with
        | Some d => scan (acc * 10 + d) (S digits) false s'
        | None => None
        end
  end.

(** A literal without sign: not empty, no underscore in front, at most
    [max_str_digits] digits. *)
Definition parse_unsigned (s : string) : option Z :=
  match s with
  | "" => None
  | String c _ =>
      if Ascii.eqb c "_" then None
      else match scan 0 0 false s with
           | Some (value, digits) =>
               if (max_str_digits <? digits)%nat then None else Some value
           | None => None
           end
  end.

(** [int(s)] in base 10 for a string without whitespace at its ends, as
    [str.strip] returns it; [None] stands for [ValueError]. *)
Definition int_of_str (s : string) : option Z :=
  match s with
  | String "+" s' => parse_unsigned s'
  | String "-" s' => Z.opp <$> parse_unsigned s'
  | _ => parse_unsigned s
  end.

End PyInt.

(** ** [git-stats.py]: the commit count and [main] *)

Module GitStatsCli.
Import GitStats.

(** The namespace [parser.parse_args()] returns; [argparse] lets
    [format] be [text] or [json] only. *)
Record Namespace : Type := {
  path : string;
  format : string;
  verbose : bool
}.

(** How a run ends: the text written to standard output and to standard
    error, and the exit code. *)
Record Outcome : Type := {
  out : string;
  err : string;
  exit_code : Z
}.

(** [str(e)] for an exception made from one message. *)
Definition exn_message (e : Py.exn) : string :=
  match e with
  | Py.FileNotFoundError msg => msg
  | Py.ValueError msg => msg
  | Py.RuntimeError msg => msg
  | Py.CsvError msg => msg
  | Py.IsADirectoryError msg => msg
  end.

(** [p / name] for a name of one component. *)
Definition child (p : PathLib.Path) (name : string) : PathLib.Path :=
  {| PathLib.root := PathLib.root p; PathLib.parts := PathLib.parts p ++ [name] |}.

Section Main.

(** The environment: the subprocesses, the message of the [ValueError]
    that [int] raises for a string, the file system as [Path.resolve] and
    [Path.exists] see it, and the text [traceback.print_exc] writes. *)
Variable subprocess_run : list string -> CompletedProcess.
Variable int_error : string -> string.
Variable resolve : PathLib.Path -> PathLib.Path.
Variable path_exists : PathLib.Path -> bool.
Variable print_exc : Py.exn -> string.

Definition get_commit_count (repo_path : string) : Py.result Z :=
  let result := subprocess_run ["git"; "-C"; repo_path; "rev-list"; "--count"; "HEAD"] in
  if bool_decide (returncode result ≠ 0%Z) then
    Py.Raise (Py.RuntimeError "Not a git repository or git is not installed")
  else
    match PyInt.int_of_str (Py.strip (stdout result)) with
    | Some n => Py.Ok n
    | None => Py.Raise (Py.ValueError (int_error (Py.strip (stdout result))))
    end.

(** The dictionary [stats], its three values computed in this order. *)
Definition collect_stats (repo_path : string) : Py.result StatsRecord :=
  commits ← get_commit_count repo_path;
  authors ← get_author_count subprocess_run repo_path;
  branches ← get_branch_count subprocess_run repo_path;
  Py.Ok {| commits := commits;
           authors := Z.of_nat authors;
           branches := Z.of_nat branches |}.

(** [main] from the parsed arguments on.  A keyboard interrupt is not
    part of the model. *)
Definition main (args : Namespace) : Outcome :=
  let repo_path := resolve (PathLib.parse (path args)) in
  if negb (path_exists repo_path) then
    {| out := "";
       err := Py.print ("Error: Path '" +:+ path args +:+ "' does not exist");
       exit_code := 1 |}
  else if negb (path_exists (child repo_path ".git")) then
    {| out := "";
       err := Py.print ("Error: '" +:+ path args +:+ "' is not a git repository");
       exit_code := 1 |}
  else
    let analyzing :=
      if verbose args
      then Py.print ("Analyzing repository: " +:+ PathLib.str repo_path)
      else "" in
    match collect_stats (PathLib.str repo_path) with
    | Py.Ok stats =>
        {| out := display_stats stats (format args);
           err := analyzing;
           exit_code := 0 |}
    | Py.Raise (Py.RuntimeError msg) =>
        {| out := "";
           err := analyzing +:+ Py.print ("Error: " +:+ msg);
           exit_code := 1 |}
    | Py.Raise e =>
        {| out := "";
           err := analyzing +:+ Py.print ("Unexpected error: " +:+ exn_message e)
                  +:+ (if verbose args then print_exc e else "");
           exit_code := 1 |}
    end.

End Main.

End GitStatsCli.

(** ** [data_processor.py] run as a script *)

Module DataProcessorCli.
Import DataProcessor.

(** How the script ends: the text printed and the exit code.  What the
    logger writes is in the [log] of the world. *)
Record Outcome : Type := {
  out : string;
  exit_code : Z
}.

(** [logger.error(msg, exc_info=True)]; the log keeps the message. *)
Definition logger_error (msg : string) (w : World) : World :=
  {| files := files w; dirs := dirs w; log := log w ++ [msg] |}.

(** The body under [if __name__ == "__main__"], from [sys.argv]. *)
Definition script (argv : list string) (w : World) : Outcome * World :=
  match argv with
  | _ :: input_file :: rest =>
      let output_file := head rest in
      match process_csv input_file output_file w with
      | (Py.Ok result, w') =>
          ({| out := Py.print ("Processed "
                               +:+ Py.str_of_int (Z.of_nat (count result))
                               +:+ " records");
              exit_code := 0 |}, w')
      | (Py.Raise e, w') =>
          ({| out := ""; exit_code := 1 |},
           logger_error ("Processing failed: " +:+ GitStatsCli.exn_message e) w')
      end
  | _ =>
      ({| out := Py.print "Usage: python data_processor.py input.csv [output.json]";
          exit_code := 2 |}, w)
  end.

End DataProcessorCli.

(** ** Files without quotes *)

Module Plain.

(** No quote character in [s]. *)
Fixpoint no_quote (s : string) : bool :=
  match s with
  | "" => true
  | String c s' => negb (Ascii.eqb c Csv.quotechar) && no_quote s'
  end.

(** A line without the line feed that ends it. *)
Fixpoint chomp (line : string) : string :=
  match line with
  | "" => ""
  | String c line' =>
      match line' with
      | "" => if Ascii.eqb c Py.LF then "" else line
      | _ => String c (chomp line')
      end
  end.

(** The record of a line: nothing for an empty line, else the pieces
    between the commas. *)
Definition record_of_line (line : string) : list string :=
  match chomp line with
  | "" => []
  | body => Py.split Csv.delimiter body
  end.

(** The rows of a file read line by line: the first line is the header,
    every later line that is not empty is a row. *)
Definition rows_of (content : string) : list Csv.Row :=
  match record_of_line <$> Py.readlines content with
  | [] => []
  | fieldnames :: records =>
      Csv.DictReader_row fieldnames <$> filter (fun row => row ≠ []) records
  end.

End Plain.

(** ** Notions the proofs of the parser use *)

Module Facts.

(** The one error the parser raises on lines of a text stream. *)
Definition limit_error : Py.exn :=
  Py.CsvError "field larger than field limit (131072)".

(** [r] is a parser in a state that satisfies [P], or the limit error. *)
Definition ok_or_limit (P : Csv.ReaderObj -> Prop) (r : Py.result Csv.ReaderObj) : Prop :=
  match r with
  | Py.Ok self => P self
  | Py.Raise e => e = limit_error
  end.

(** The pieces of a line put behind the field already begun. *)
Definition glue (begun : string) (pieces : list string) : list string :=
  match pieces with
  | [] => [begun]
  | piece :: pieces' => (begun +:+ piece) :: pieces'
  end.

(** The row of a record under a header of distinct names: each column
    the record reaches with its value, in the order of the header; then
    the columns it does not reach, with [None]; last, under the key
    [None], the values beyond the header, if there are any. *)
Definition aligned_row (fieldnames row : list string) : Csv.Row :=
  (zip (Some <$> fieldnames) (Csv.Str <$> row)
   ++ ((fun key => (Some key, Csv.NoneVal)) <$> drop (length row) fieldnames)
   ++ (if (length fieldnames <? length row)%nat
       then [(None, Csv.Rest (drop (length fieldnames) row))]
       else []))%list.

(** No line feed in [s]. *)
Fixpoint no_lf (s : string) : bool :=
  match s with
  | "" => true
  | String c s' => negb (Ascii.eqb c Py.LF) && no_lf s'
  end.

(** Digits only. *)
Fixpoint all_digits (s : string) : bool :=
  match s with
  | "" => true
  | String c s' => bool_decide (is_Some (PyInt.digit_value c)) && all_digits s'
  end.

(** The value of a run of digits read after [acc]. *)
Fixpoint digits_val (acc : Z) (s : string) : Z :=
  match s with
  | "" => acc
  | String c s' =>
      digits_val (acc * 10 + default 0%Z (PyInt.digit_value c)) s'
  end.

End Facts.

(** ** Notions the properties are stated with *)

Module Spec.

(** A line is blank when it holds nothing but whitespace. *)
Fixpoint blank (line : string) : bool :=
  match line with
  | "" => true
  | String c line' => Py.isspace c && blank line'
  end.

(** The number of lines of [out] that are not blank. *)
Definition non_blank_lines (out : string) : nat :=
  length (filter (fun line => blank line = false) (Py.split Py.LF out)).

(** What [git log --format=%ae] prints for commits with these author
    emails: one line for each commit. *)
Definition log_of (emails : list string) : string :=
  foldr (fun email rest => email +:+ Py.nl +:+ rest) "" emails.

(** The fields of a line of CSV text, by their lengths.  A field is
    quoted when its first character is a double quote; inside a quoted
    field a comma and a line break are characters of the field and two
    double quotes stand for one; after the closing quote the field goes
    on unquoted.  Outside quotes a comma ends the field and a line break
    ends the line.  [cur] is the length of the field being read. *)
Inductive mode : Type :=
| Unquoted
| Quoted
| AfterQuote.

Fixpoint field_lengths_from (m : mode) (cur : N) (line : string) : list N :=
  match line with
  | "" => [cur]
  | String c rest =>
      match m with
      | Unquoted =>
          if Csv.is_crnl c then [cur]
          else if Ascii.eqb c Csv.quotechar && (cur =? 0)%N then
            field_lengths_from Quoted 0 rest
          else if Ascii.eqb c Csv.delimiter then
            cur :: field_lengths_from Unquoted 0 rest
          else field_lengths_from Unquoted (cur + 1) rest
      | Quoted =>
          if Ascii.eqb c Csv.quotechar then field_lengths_from AfterQuote cur rest
          else field_lengths_from Quoted (cur + 1) rest
      | AfterQuote =>
          if Ascii.eqb c Csv.quotechar then field_lengths_from Quoted (cur + 1) rest
          else if Ascii.eqb c Csv.delimiter then
            cur :: field_lengths_from Unquoted 0 rest
          else if Csv.is_crnl c then [cur]
          else field_lengths_from Unquoted (cur + 1) rest
      end
  end.

Definition field_lengths (line : string) : list N :=
  field_lengths_from Unquoted 0 line.

(** No field of the line is longer than the limit of the reader. *)
Definition fields_within_limit (line : string) : Prop :=
  Forall (fun n => (n <= Csv.field_limit)%N) (field_lengths line).

End Spec.

(** ** Shapes of text the proofs follow *)

Module Shape.

(** No carriage return in [s]. *)
Fixpoint no_cr (s : string) : bool :=
  match s with
  | "" => true
  | String c s' => negb (Ascii.eqb c Py.CR) && no_cr s'
  end.

(** Neither carriage return nor line feed in [s]. *)
Fixpoint no_crnl (s : string) : bool :=
  match s with
  | "" => true
  | String c s' => negb (Csv.is_crnl c) && no_crnl s'
  end.

(** An email address as [git] prints it: not empty, and without
    whitespace. *)
Fixpoint no_space (s : string) : bool :=
  match s with
  | "" => true
  | String c s' => negb (Py.isspace c) && no_space s'
  end.

Definition address (email : string) : Prop :=
  email ≠ "" /\ no_space email = true.

(** A line as a text stream yields it: characters other than line
    breaks, then at most one line feed. *)
Definition line_ok (line : string) : Prop :=
  exists body, no_crnl body = true /\ (line = body \/ line = body +:+ Py.nl).

End Shape.

(** ** Sample inputs *)

Module Samples.

(** The text [a,b\n1,2\n3,4]. *)
Definition csv_two_rows : string :=
  "a,b" +:+ Py.nl +:+ "1,2" +:+ Py.nl +:+ "3,4".

(** A header, a row that is too short and a row that is too long. *)
Definition csv_ragged : string :=
  "a,b" +:+ Py.nl +:+ "1" +:+ Py.nl +:+ "3,4,5,6" +:+ Py.nl.

(** A header line alone. *)
Definition csv_header_only : string := "a,b" +:+ Py.nl.

(** A header line of 131073 characters without a comma. *)
Definition csv_long_header : string := N.iter 131073 (String "a") "".

(** A world with one file and an empty log. *)
Definition world_with (path content : string) : DataProcessor.World :=
  {| DataProcessor.files := {[ path := content ]};
     DataProcessor.dirs := ∅;
     DataProcessor.log := [] |}.

(** A [git] that exits with 0 and prints [out], whatever it is asked. *)
Definition git_prints (out : string) : list string -> GitStats.CompletedProcess :=
  fun _ => {| GitStats.returncode := 0; GitStats.stdout := out |}.

Definition stats_5_2_3 : GitStats.StatsRecord :=
  {| GitStats.commits := 5; GitStats.authors := 2; GitStats.branches := 3 |}.

End Samples.

(** ** More sample inputs *)

Module Cases.

(** A header that names the column [a] twice, and one record. *)
Definition csv_repeated : string := "a,a" +:+ Py.nl +:+ "1,2" +:+ Py.nl.

(** A repository at [/repo] in which [git] counts 5 commits, logs three
    commits by two authors and lists three branches. *)
Definition git_repo (argv : list string) : GitStats.CompletedProcess :=
  match argv with
  | [_; _; _; "rev-list"; _; _] =>
      {| GitStats.returncode := 0; GitStats.stdout := "5" +:+ Py.nl |}
  | [_; _; _; "log"; _] =>
      {| GitStats.returncode := 0;
         GitStats.stdout := Spec.log_of ["a@x.org"; "b@x.org"; "a@x.org"] |}
  | [_; _; _; "branch"; _] =>
      {| GitStats.returncode := 0;
         GitStats.stdout := Spec.log_of ["* main"; "  dev"; "  remotes/origin/main"] |}
  | _ => {| GitStats.returncode := 128; GitStats.stdout := "" |}
  end.

(** A line of three fields, the last two of them quoted: the second
    holds a comma, the third a double quote, written twice. *)
Definition csv_quoted_header : string :=
  "a," +:+ String Csv.quotechar ("b,c" +:+ String Csv.quotechar (","
    +:+ String Csv.quotechar ("d" +:+ String Csv.quotechar (String Csv.quotechar ("e"
    +:+ String Csv.quotechar Py.nl))))).

(** A header of one name as long as a field may be, with its line
    feed. *)
Definition csv_full_header : string :=
  N.iter 131072 (String "a") Py.nl.

(** A world with the regular file [notes.txt], the current directory
    and a directory named [tables.csv]. *)
Definition world_with_dir : DataProcessor.World :=
  {| DataProcessor.files := {[ "notes.txt" := Samples.csv_two_rows ]};
     DataProcessor.dirs :=
       {[ "." := "[Errno 21] Is a directory"; "tables.csv" := "[Errno 21] Is a directory" ]};
     DataProcessor.log := [] |}.


(** A [git] that fails whatever it is asked. *)
Definition git_fails (argv : list string) : GitStats.CompletedProcess :=
  {| GitStats.returncode := 128; GitStats.stdout := "" |}.

(** A file system that holds [/repo] and [/repo/.git] and nothing else;
    paths are absolute already. *)
Definition repo_exists (p : PathLib.Path) : bool :=
  bool_decide (PathLib.str p = "/repo" \/ PathLib.str p = "/repo/.git").

Definition args_text : GitStatsCli.Namespace :=
  {| GitStatsCli.path := "/repo"; GitStatsCli.format := "text";
     GitStatsCli.verbose := false |}.

End Cases.

(** * Properties *)

(** ** Stripping *)

Section Strip.

Lemma lstrip_empty_iff s : Py.lstrip s = "" <-> Spec.blank s = true.
Proof.
  induction s as [|c s IH]; simpl; [done|].
  destruct (Py.isspace c); simpl; [exact IH|].
  split; discriminate.
Qed.

Lemma rstrip_blank s : Spec.blank s = true -> Py.rstrip s = "".
Proof.
  induction s as [|c s IH]; simpl; [done|].
  intros [Hc Hs]%andb_true_iff. rewrite (IH Hs), Hc. reflexivity.
Qed.

(** What [rstrip] leaves is empty or ends with a character that is not
    whitespace, so it is blank only when it is empty. *)
Lemma rstrip_not_blank s : Spec.blank (Py.rstrip s) = true -> Py.rstrip s = "".
Proof.
  induction s as [|c s IH]; simpl; [done|].
  destruct (Py.rstrip s) as [|c' r] eqn:Hr.
  - destruct (Py.isspace c) eqn:Hc; simpl; [done|].
    rewrite Hc. discriminate.
  - cbn [Spec.blank]. intros [_ Hb]%andb_true_iff.
    specialize (IH Hb). discriminate.
Qed.

Lemma strip_empty_iff s : Py.strip s = "" <-> Spec.blank s = true.
Proof.
  unfold Py.strip. rewrite lstrip_empty_iff. split.
  - intros Hb. apply rstrip_not_blank in Hb.
    clear -Hb. induction s as [|c s IH]; simpl in *; [done|].
    destruct (Py.rstrip s) as [|c' r]; [|discriminate].
    destruct (Py.isspace c); [|discriminate]. simpl. by apply IH.
  - intros Hb. rewrite (rstrip_blank _ Hb). reflexivity.
Qed.

End Strip.

(** ** The author log *)

Section AuthorLog.

Lemma app_cons c s t : String c s +:+ t = String c (s +:+ t).
Proof. reflexivity. Qed.

Lemma app_empty_r s : s +:+ "" = s.
Proof. induction s as [|c s IH]; [done|]. rewrite app_cons. by f_equal. Qed.

Lemma rstrip_app e t :
  Shape.no_space e = true -> Py.rstrip (e +:+ t) = e +:+ Py.rstrip t.
Proof.
  induction e as [|c e IH]; [done|]. cbn [Shape.no_space].
  intros [Hc He]%andb_true_iff. apply negb_true_iff in Hc.
  rewrite !app_cons. cbn [Py.rstrip]. rewrite (IH He).
  destruct (e +:+ Py.rstrip t) eqn:Happ; [|reflexivity].
  by rewrite Hc.
Qed.

Lemma rstrip_log_of emails :
  Forall Shape.address emails ->
  Py.rstrip (Spec.log_of emails) = Py.join Py.nl emails.
Proof.
  induction 1 as [|e es [Hne He] Hes IH]; [done|].
  cbn [Spec.log_of foldr]. fold (Spec.log_of es).
  rewrite rstrip_app by assumption.
  destruct es as [|e' es]; [apply app_empty_r|].
  change (Py.join Py.nl (e :: e' :: es))
    with (e +:+ String Py.LF (Py.join Py.nl (e' :: es))).
  f_equal.
  change (Py.nl +:+ Spec.log_of (e' :: es)) with (String Py.LF (Spec.log_of (e' :: es))).
  cbn [Py.rstrip]. rewrite IH.
  destruct (Py.join Py.nl (e' :: es)) as [|c r] eqn:Hjoin; [|reflexivity].
  exfalso. inversion Hes as [|? ? [Hne' _] _]; subst.
  destruct e' as [|c' e']; [done|]. destruct es; discriminate.
Qed.

Lemma lstrip_address e t :
  Shape.address e -> Py.lstrip (e +:+ t) = e +:+ t.
Proof.
  intros [Hne He]. destruct e as [|c e]; [done|]. cbn [Shape.no_space] in He.
  apply andb_true_iff in He as [Hc _]. apply negb_true_iff in Hc.
  rewrite app_cons. cbn [Py.lstrip]. by rewrite Hc.
Qed.

Lemma isspace_LF : Py.isspace Py.LF = true.
Proof. reflexivity. Qed.

Lemma split_not_nil sep s : Py.split sep s ≠ [].
Proof.
  destruct s as [|c s]; simpl; [done|].
  destruct (Ascii.eqb c sep); [done|]. by destruct (Py.split sep s).
Qed.

Lemma split_app e t :
  Shape.no_space e = true ->
  Py.split Py.LF (e +:+ t)
  = match Py.split Py.LF t with
    | [] => [e]
    | piece :: pieces => (e +:+ piece) :: pieces
    end.
Proof.
  induction e as [|c e IH]; cbn [Shape.no_space].
  - intros _. change ("" +:+ t) with t.
    pose proof (split_not_nil Py.LF t). by destruct (Py.split Py.LF t).
  - intros [Hc He]%andb_true_iff. apply negb_true_iff in Hc.
    rewrite app_cons. cbn [Py.split].
    assert (Ascii.eqb c Py.LF = false) as ->.
    { destruct (Ascii.eqb_spec c Py.LF) as [->|]; [|done].
      by rewrite isspace_LF in Hc. }
    rewrite (IH He). by destruct (Py.split Py.LF t).
Qed.

Lemma split_join emails :
  emails ≠ [] ->
  Forall Shape.address emails ->
  Py.split Py.LF (Py.join Py.nl emails) = emails.
Proof.
  intros Hne Hall. induction Hall as [|e es [_ He] Hes IH]; [done|].
  destruct es as [|e' es].
  - cbn [Py.join]. rewrite <- (app_empty_r e) at 1.
    rewrite split_app by assumption. cbn [Py.split]. by rewrite app_empty_r.
  - change (Py.join Py.nl (e :: e' :: es))
      with (e +:+ String Py.LF (Py.join Py.nl (e' :: es))).
    rewrite split_app by assumption. cbn [Py.split].
    rewrite Ascii.eqb_refl, app_empty_r. f_equal. by apply IH.
Qed.

(** The lines of a log of addresses, as [get_author_count] takes them
    apart, are the addresses. *)
Lemma strip_split_log_of emails :
  emails ≠ [] ->
  Forall Shape.address emails ->
  Py.split Py.LF (Py.strip (Spec.log_of emails)) = emails.
Proof.
  intros Hne Hall. unfold Py.strip. rewrite rstrip_log_of by assumption.
  destruct Hall as [|e es He Hes]; [done|].
  assert (Py.lstrip (Py.join Py.nl (e :: es)) = Py.join Py.nl (e :: es)) as ->.
  { destruct es as [|e' es].
    - cbn [Py.join]. rewrite <- (app_empty_r e). by apply lstrip_address.
    - by apply lstrip_address. }
  apply split_join; [done|by constructor].
Qed.

End AuthorLog.

(** ** Dictionaries *)

Section DictFacts.
Context {K V : Type} `{EqDecision K}.
Implicit Types (k : K) (v : V) (d : list (K * V)).

Lemma dict_get_set_eq k v d : Py.dict_get k (Py.dict_set k v d) = Some v.
Proof.
  induction d as [|[k' v'] d IH]; simpl.
  - by rewrite decide_True.
  - destruct (decide (k' = k)) as [->|Hne]; simpl.
    + by rewrite decide_True.
    + by rewrite decide_False.
Qed.

Lemma dict_get_set_ne k k' v d :
  k ≠ k' -> Py.dict_get k' (Py.dict_set k v d) = Py.dict_get k' d.
Proof.
  intros Hne. induction d as [|[k0 v0] d IH]; simpl.
  - by rewrite decide_False.
  - destruct (decide (k0 = k)) as [->|Hne0]; simpl.
    + by rewrite !decide_False.
    + by rewrite IH.
Qed.

End DictFacts.

(** ** Rows of [DictReader] *)

Section Rows.

Lemma fill_restval (keys : list string) (d : Csv.Row) (key : string) :
  key ∈ keys \/ Py.dict_get (Some key) d = Some Csv.NoneVal ->
  Py.dict_get (Some key)
    (foldl (fun d key => Py.dict_set (Some key) Csv.NoneVal d) d keys)
  = Some Csv.NoneVal.
Proof.
  revert d. induction keys as [|k keys IH]; intros d [Hin|Hget]; simpl.
  - by apply elem_of_nil in Hin.
  - exact Hget.
  - apply IH. apply elem_of_cons in Hin as [->|Hin]; [right|by left].
    apply dict_get_set_eq.
  - apply IH. right. destruct (decide (k = key)) as [->|Hne].
    + apply dict_get_set_eq.
    + rewrite dict_get_set_ne by congruence. exact Hget.
Qed.

(** A record shorter than the header: every column it does not reach is
    a key of the row, with the value [None]. *)
Lemma DictReader_row_short fieldnames row key :
  length row < length fieldnames ->
  key ∈ drop (length row) fieldnames ->
  Py.dict_get (Some key) (Csv.DictReader_row fieldnames row) = Some Csv.NoneVal.
Proof.
  intros Hlen Hin. unfold Csv.DictReader_row.
  rewrite (proj2 (Nat.ltb_ge _ _)) by lia.
  rewrite (proj2 (Nat.ltb_lt _ _)) by lia.
  apply fill_restval. by left.
Qed.

(** A record longer than the header: the values beyond the header are
    the list under the key [None]. *)
Lemma DictReader_row_long fieldnames row :
  length fieldnames < length row ->
  Py.dict_get None (Csv.DictReader_row fieldnames row)
  = Some (Csv.Rest (drop (length fieldnames) row)).
Proof.
  intros Hlen. unfold Csv.DictReader_row.
  rewrite (proj2 (Nat.ltb_lt _ _)) by lia.
  apply dict_get_set_eq.
Qed.

End Rows.

(** ** Lines of a text file *)

Section Lines.

Lemma translate_newlines_no_cr after_cr s :
  Shape.no_cr (Py.translate_newlines_from after_cr s) = true.
Proof.
  revert after_cr. induction s as [|c s IH]; intros after_cr; simpl; [done|].
  destruct (Ascii.eqb c Py.CR) eqn:Hcr; simpl; [apply IH|].
  destruct (Ascii.eqb c Py.LF && after_cr); simpl; [apply IH|].
  rewrite Hcr. simpl. apply IH.
Qed.

Lemma translate_newlines_length after_cr s :
  String.length (Py.translate_newlines_from after_cr s) <= String.length s.
Proof.
  revert after_cr. induction s as [|c s IH]; intros after_cr; simpl; [done|].
  destruct (Ascii.eqb c Py.CR); simpl; [specialize (IH true); lia|].
  destruct (Ascii.eqb c Py.LF && after_cr); simpl.
  - specialize (IH false). lia.
  - specialize (IH false). lia.
Qed.

Lemma line_ok_cons c line :
  Csv.is_crnl c = false -> Shape.line_ok line -> Shape.line_ok (String c line).
Proof.
  intros Hc (body & Hbody & Hline). exists (String c body). split.
  - simpl. by rewrite Hc.
  - destruct Hline as [->| ->]; [by left|by right].
Qed.

Lemma iter_lines_ok s :
  Shape.no_cr s = true -> Forall Shape.line_ok (Py.iter_lines s).
Proof.
  induction s as [|c s IH]; simpl; [constructor|].
  intros [Hc Hs]%andb_true_iff. specialize (IH Hs).
  destruct (Ascii.eqb c Py.LF) eqn:Hlf.
  - constructor; [|exact IH]. exists "". split; [done|by right].
  - assert (Csv.is_crnl c = false) as Hplain.
    { unfold Csv.is_crnl. rewrite Hlf. by apply negb_true_iff in Hc. }
    destruct (Py.iter_lines s) as [|line lines].
    + constructor; [|constructor]. exists (String c ""). split.
      * simpl. by rewrite Hplain.
      * by left.
    + inversion IH; subst. constructor; [|assumption]. by apply line_ok_cons.
Qed.

Lemma iter_lines_length s :
  sum_list (String.length <$> Py.iter_lines s) = String.length s.
Proof.
  induction s as [|c s IH]; [done|]. cbn [Py.iter_lines String.length].
  destruct (Ascii.eqb c Py.LF).
  - rewrite fmap_cons. cbn [sum_list sum_list_with id]. rewrite IH. reflexivity.
  - destruct (Py.iter_lines s) as [|line lines].
    + simpl in *. lia.
    + rewrite fmap_cons in IH. rewrite fmap_cons.
      cbn [sum_list sum_list_with String.length id] in IH |- *. lia.
Qed.

(** Every line read from a file is well shaped. *)
Lemma readlines_ok content : Forall Shape.line_ok (Py.readlines content).
Proof. apply iter_lines_ok, translate_newlines_no_cr. Qed.

Lemma readlines_length content :
  sum_list (String.length <$> Py.readlines content) <= String.length content.
Proof.
  unfold Py.readlines. rewrite iter_lines_length. apply translate_newlines_length.
Qed.

End Lines.

(** ** The parser on well-shaped lines *)

Section Parsing.
Import Csv.

Lemma parse_add_char_ok self c :
  (field_len self < field_limit)%N ->
  parse_add_char self c
  = Py.Ok {| state := state self; fields := fields self;
             field := c :: field self; field_len := field_len self + 1 |}.
Proof.
  intros Hlen. unfold parse_add_char.
  by rewrite (proj2 (N.leb_gt _ _) Hlen).
Qed.

(** A character that is no line break keeps the parser out of
    [EAT_CRNL] and makes the field at most one longer. *)
Lemma parse_process_char_plain self c :
  is_crnl c = false ->
  state self ≠ EAT_CRNL ->
  (field_len self < field_limit)%N ->
  exists self',
    parse_process_char self (Chr c) = Py.Ok self'
    /\ state self' ≠ EAT_CRNL
    /\ (field_len self' <= field_len self + 1)%N.
Proof.
  intros Hc Hst Hlen. destruct self as [st fs f n]. simpl in *.
  unfold parse_process_char, start_field; simpl. rewrite Hc.
  destruct st; try done;
    destruct (Ascii.eqb c quotechar); destruct (Ascii.eqb c delimiter);
    rewrite ?parse_add_char_ok by (simpl; assumption); simpl;
    eexists; (split; [reflexivity|]); simpl; (split; [discriminate|lia]).
Qed.

(** The end of a line: a line feed, if the line has one, and the
    end-of-line mark bring the parser to [START_RECORD], or leave it in
    [IN_QUOTED_FIELD]. *)
Lemma parse_line_end self tail :
  tail = "" \/ tail = Py.nl ->
  (field_len self + N.of_nat (String.length tail) <= field_limit)%N ->
  exists self',
    parse_line self tail = Py.Ok self'
    /\ (state self' = START_RECORD \/ state self' = IN_QUOTED_FIELD)
    /\ (field_len self' <= field_len self + N.of_nat (String.length tail))%N.
Proof.
  intros [-> | ->] Hlen; destruct self as [st fs f n]; simpl in *.
  - unfold parse_process_char, start_field; simpl.
    destruct st; simpl; eexists; (split; [reflexivity|]); simpl;
      (split; [auto|lia]).
  - unfold parse_process_char, start_field; simpl.
    destruct st; simpl;
      rewrite ?parse_add_char_ok by (simpl; lia); simpl;
      eexists; (split; [reflexivity|]); simpl; (split; [auto|lia]).
Qed.

Lemma parse_line_body body tail self :
  Shape.no_crnl body = true ->
  tail = "" \/ tail = Py.nl ->
  state self ≠ EAT_CRNL ->
  (field_len self + N.of_nat (String.length (body +:+ tail)) <= field_limit)%N ->
  exists self',
    parse_line self (body +:+ tail) = Py.Ok self'
    /\ (state self' = START_RECORD \/ state self' = IN_QUOTED_FIELD)
    /\ (field_len self'
        <= field_len self + N.of_nat (String.length (body +:+ tail)))%N.
Proof.
  intros Hbody Htail. revert self.
  induction body as [|c body IH]; intros self Hst Hlen.
  - by apply parse_line_end.
  - simpl in Hbody. apply andb_true_iff in Hbody as [Hc Hbody].
    apply negb_true_iff in Hc.
    change (String c body +:+ tail) with (String c (body +:+ tail)) in *.
    cbn [String.length] in Hlen |- *.
    destruct (parse_process_char_plain self c Hc Hst) as (self1 & Hstep & Hst1 & Hlen1);
      [lia|].
    cbn [parse_line]. rewrite Hstep. simpl.
    destruct (IH Hbody self1 Hst1) as (self' & Hparse & Hst' & Hlen'); [lia|].
    exists self'. split; [exact Hparse|]. split; [exact Hst'|lia].
Qed.

(** A well-shaped line, from any state but [EAT_CRNL]. *)
Lemma parse_line_ok self line :
  Shape.line_ok line ->
  state self ≠ EAT_CRNL ->
  (field_len self + N.of_nat (String.length line) <= field_limit)%N ->
  exists self',
    parse_line self line = Py.Ok self'
    /\ (state self' = START_RECORD \/ state self' = IN_QUOTED_FIELD)
    /\ (field_len self' <= field_len self + N.of_nat (String.length line))%N.
Proof.
  intros (body & Hbody & Hline) Hst Hlen.
  assert (line = body +:+ "" \/ line = body +:+ Py.nl) as Hline'.
  { destruct Hline as [->| ->]; [left|by right]. by rewrite app_empty_r. }
  destruct Hline' as [->| ->]; apply parse_line_body; auto.
Qed.

(** Well-shaped lines of at most [field_limit] characters in all are
    read without error. *)
Lemma reader_rows_total lines self :
  Forall Shape.line_ok lines ->
  state self ≠ EAT_CRNL ->
  (field_len self + N.of_nat (sum_list (String.length <$> lines)) <= field_limit)%N ->
  exists rows, reader_rows self lines = Py.Ok rows.
Proof.
  intros Hok. revert self.
  induction Hok as [|line lines Hline Hlines IH]; intros self Hst Hlen.
  - simpl. destruct (_ || _); eauto.
  - rewrite fmap_cons in Hlen. cbn [sum_list sum_list_with id] in Hlen.
    destruct (parse_line_ok self line Hline Hst) as (self' & Hparse & Hst' & Hlen');
      [lia|].
    cbn [reader_rows]. rewrite Hparse. simpl.
    destruct Hst' as [Hst'|Hst']; rewrite Hst'; simpl.
    + destruct (IH parse_reset) as (rows & Hrows); [discriminate|simpl; lia|].
      rewrite Hrows. simpl. eauto.
    + apply IH; [rewrite Hst'; discriminate|lia].
Qed.

Lemma DictReader_total content :
  (N.of_nat (String.length content) <= field_limit)%N ->
  exists rows, DictReader (Py.readlines content) = Py.Ok rows.
Proof.
  intros Hlen. pose proof (readlines_length content) as Hsum.
  destruct (reader_rows_total (Py.readlines content) parse_reset)
    as (rows & Hrows); [apply readlines_ok|discriminate|simpl; lia|].
  unfold DictReader, reader. rewrite Hrows. simpl.
  destruct rows; eauto.
Qed.

(** A file of one line has a header and no row. *)
Lemma DictReader_one_line line :
  Shape.line_ok line ->
  (N.of_nat (String.length line) <= field_limit)%N ->
  DictReader [line] = Py.Ok [].
Proof.
  intros Hok Hlen.
  destruct (parse_line_ok parse_reset line Hok) as (self' & Hparse & Hst & _);
    [discriminate|simpl; lia|].
  unfold DictReader, reader. cbn [reader_rows]. rewrite Hparse. simpl.
  destruct Hst as [Hst|Hst]; rewrite Hst; simpl.
  - reflexivity.
  - rewrite orb_true_r. reflexivity.
Qed.

(** The lengths listed for a line include that of the field being
    read, or of a longer one. *)
Lemma field_lengths_from_cur line m cur :
  Forall (fun n => (n <= field_limit)%N) (Spec.field_lengths_from m cur line) ->
  (cur <= field_limit)%N.
Proof.
  revert m cur. induction line as [|c line IH]; intros m cur Hall; simpl in Hall.
  - by apply Forall_inv in Hall.
  - destruct m.
    + destruct (is_crnl c); [by apply Forall_inv in Hall|].
      destruct (Ascii.eqb c quotechar && (cur =? 0)%N) eqn:Hq.
      { apply andb_true_iff in Hq as [_ Hcur%N.eqb_eq]. subst cur. done. }
      destruct (Ascii.eqb c delimiter); [by apply Forall_inv in Hall|].
      apply IH in Hall. lia.
    + destruct (Ascii.eqb c quotechar); apply IH in Hall; lia.
    + destruct (Ascii.eqb c quotechar); [apply IH in Hall; lia|].
      destruct (Ascii.eqb c delimiter); [by apply Forall_inv in Hall|].
      destruct (is_crnl c); [by apply Forall_inv in Hall|].
      apply IH in Hall. lia.
Qed.

(** The parser and the scan of the fields are at the same place of the
    line. *)
Definition agrees (m : Spec.mode) (cur : N) (self : ReaderObj) : Prop :=
  field_len self = cur
  /\ match m with
     | Spec.Unquoted =>
         if (cur =? 0)%N
         then state self = START_RECORD \/ state self = START_FIELD
         else state self = IN_FIELD
     | Spec.Quoted => state self = IN_QUOTED_FIELD
     | Spec.AfterQuote => state self = QUOTE_IN_QUOTED_FIELD
     end.

Lemma parse_line_end_fields tail m cur self :
  tail = "" \/ tail = Py.nl ->
  agrees m cur self ->
  Forall (fun n => (n <= field_limit)%N) (Spec.field_lengths_from m cur tail) ->
  exists self',
    parse_line self tail = Py.Ok self'
    /\ (state self' = START_RECORD \/ state self' = IN_QUOTED_FIELD).
Proof.
  intros Htail [Hlen Hst] Hall. destruct self as [st fs f n]. simpl in *. subst n.
  destruct Htail as [-> | ->]; simpl in *.
  - unfold parse_process_char; simpl.
    destruct m; [destruct (cur =? 0)%N; [destruct Hst as [-> | ->]|subst st]
                |subst st..]; simpl; eauto.
  - unfold parse_process_char, start_field; simpl.
    destruct m.
    + destruct (cur =? 0)%N; [destruct Hst as [-> | ->]|subst st]; simpl; eauto.
    + subst st. simpl. simpl in Hall. apply Forall_inv in Hall.
      rewrite parse_add_char_ok by (simpl; lia). simpl. eauto.
    + subst st. simpl. eauto.
Qed.

(** A well-shaped line in which no field is longer than [field_limit] is
    read without error, and ends the record or leaves the parser inside
    a quoted field. *)
Lemma parse_line_fields body tail :
  Shape.no_crnl body = true ->
  tail = "" \/ tail = Py.nl ->
  forall m cur self,
    agrees m cur self ->
    Forall (fun n => (n <= field_limit)%N)
           (Spec.field_lengths_from m cur (body +:+ tail)) ->
    exists self',
      parse_line self (body +:+ tail) = Py.Ok self'
      /\ (state self' = START_RECORD \/ state self' = IN_QUOTED_FIELD).
Proof.
  intros Hbody Htail.
  induction body as [|c body IH]; intros m cur self Hagree Hall.
  - by apply (parse_line_end_fields tail m cur).
  - simpl in Hbody. apply andb_true_iff in Hbody as [Hc Hbody].
    apply negb_true_iff in Hc. specialize (IH Hbody).
    change (String c body +:+ tail) with (String c (body +:+ tail)) in *.
    cbn [Spec.field_lengths_from] in Hall. cbn [parse_line].
    destruct Hagree as [Hlen Hst]. destruct self as [st fs f n].
    simpl in Hlen, Hst. subst n.
    destruct m.
    + rewrite Hc in Hall.
      destruct (cur =? 0)%N eqn:Hcur.
      * apply N.eqb_eq in Hcur. subst cur.
        assert (parse_process_char
                  {| state := st; fields := fs; field := f; field_len := 0 |} (Chr c)
                = start_field
                    {| state := START_FIELD; fields := fs; field := f; field_len := 0 |}
                    (Chr c)) as ->.
        { destruct Hst as [-> | ->]; unfold parse_process_char; simpl;
            by rewrite ?Hc. }
        unfold start_field. rewrite Hc.
        destruct (Ascii.eqb c quotechar); simpl in Hall |- *.
        { apply (IH Spec.Quoted 0%N); [done|exact Hall]. }
        destruct (Ascii.eqb c delimiter); simpl.
        { apply Forall_cons in Hall as [_ Hall].
          apply (IH Spec.Unquoted 0%N); [split; [done|]; simpl; auto|exact Hall]. }
        pose proof (field_lengths_from_cur _ _ _ Hall) as Hone.
        rewrite ?parse_add_char_ok by (simpl; lia). simpl.
        apply (IH Spec.Unquoted (0 + 1)%N); [|exact Hall]. split; [done|]. done.
      * subst st. rewrite andb_false_r in Hall.
        unfold parse_process_char; simpl. rewrite Hc.
        destruct (Ascii.eqb c delimiter); simpl.
        { apply Forall_cons in Hall as [_ Hall].
          apply (IH Spec.Unquoted 0%N); [split; [done|]; simpl; auto|exact Hall]. }
        pose proof (field_lengths_from_cur _ _ _ Hall) as Hone.
        rewrite parse_add_char_ok by (simpl; lia). simpl.
        apply (IH Spec.Unquoted (cur + 1)%N); [|exact Hall]. split; [done|].
        by rewrite (proj2 (N.eqb_neq _ _)) by lia.
    + subst st. unfold parse_process_char; simpl.
      destruct (Ascii.eqb c quotechar); simpl.
      { apply (IH Spec.AfterQuote cur); [done|exact Hall]. }
      pose proof (field_lengths_from_cur _ _ _ Hall) as Hone.
      rewrite parse_add_char_ok by (simpl; lia). simpl.
      apply (IH Spec.Quoted (cur + 1)%N); [done|exact Hall].
    + subst st. unfold parse_process_char; simpl.
      destruct (Ascii.eqb c quotechar); simpl.
      { pose proof (field_lengths_from_cur _ _ _ Hall) as Hone.
        rewrite parse_add_char_ok by (simpl; lia). simpl.
        apply (IH Spec.Quoted (cur + 1)%N); [done|exact Hall]. }
      destruct (Ascii.eqb c delimiter); simpl.
      { apply Forall_cons in Hall as [_ Hall].
        apply (IH Spec.Unquoted 0%N); [split; [done|]; simpl; auto|exact Hall]. }
      rewrite Hc in Hall |- *.
      pose proof (field_lengths_from_cur _ _ _ Hall) as Hone.
      rewrite parse_add_char_ok by (simpl; lia). simpl.
      apply (IH Spec.Unquoted (cur + 1)%N); [|exact Hall]. split; [done|].
      by rewrite (proj2 (N.eqb_neq _ _)) by lia.
Qed.

(** A file of one line, no field of it too long, has a header and no
    row. *)
Lemma DictReader_header_line line :
  Shape.line_ok line ->
  Spec.fields_within_limit line ->
  DictReader [line] = Py.Ok [].
Proof.
  intros (body & Hbody & Hline) Hall.
  assert (exists tail, (tail = "" \/ tail = Py.nl) /\ line = body +:+ tail)
    as (tail & Htail & ->).
  { destruct Hline as [->| ->]; [exists ""|exists Py.nl]; split; auto.
    by rewrite app_empty_r. }
  destruct (parse_line_fields body tail Hbody Htail Spec.Unquoted 0%N parse_reset)
    as (self' & Hparse & Hst); [split; [done|]; simpl; auto|exact Hall|].
  unfold DictReader, reader. cbn [reader_rows]. rewrite Hparse. simpl.
  destruct Hst as [Hst|Hst]; rewrite Hst; simpl.
  - reflexivity.
  - rewrite orb_true_r. reflexivity.
Qed.

End Parsing.

(** ** Running [process_csv] *)

Section ProcessCsvRuns.
Import DataProcessor.

Variables (input_file : string) (output_file : option string) (w : World).

Let input_path := PathLib.parse input_file.

Lemma process_csv_missing :
  files w !! PathLib.str input_path = None ->
  dirs w !! PathLib.str input_path = None ->
  process_csv input_file output_file w
  = (Py.Raise (Py.FileNotFoundError ("Input file '" +:+ input_file +:+ "' not found")), w).
Proof.
  intros Hnone Hnodir. unfold process_csv, mbind, M_bind, bind, path_exists.
  fold input_path. rewrite Hnone, Hnodir.
  rewrite bool_decide_eq_false_2 by (intros [[? ?]|[? ?]]; discriminate).
  reflexivity.
Qed.

Lemma process_csv_bad_suffix :
  is_Some (files w !! PathLib.str input_path)
  \/ is_Some (dirs w !! PathLib.str input_path) ->
  PathLib.suffix input_path ≠ ".csv" ->
  process_csv input_file output_file w
  = (Py.Raise (Py.ValueError "Input file must be a CSV file"), w).
Proof.
  intros Hsome Hsuf. unfold process_csv, mbind, M_bind, bind, path_exists.
  fold input_path.
  rewrite (bool_decide_eq_true_2 _ Hsome), (bool_decide_eq_false_2 _ Hsuf).
  reflexivity.
Qed.

(** A run on an existing [.csv] file: what it returns and the world it
    leaves behind. *)
Lemma process_csv_read content :
  files w !! PathLib.str input_path = Some content ->
  PathLib.suffix input_path = ".csv" ->
  process_csv input_file output_file w
  = match Csv.DictReader (Py.readlines content) with
    | Py.Ok rows =>
        let result := {| data := rows; count := length rows;
                         source := PathLib.str input_path |} in
        (Py.Ok result,
         match truthy output_file with
         | Some o =>
             {| files := <[PathLib.str (PathLib.parse o)
                           := Json.dumps (result_json result)]> (files w);
                dirs := dirs w;
                log := (log w ++ ["Processing " +:+ input_file])
                       ++ ["Saved output to " +:+ o] |}
         | None =>
             {| files := files w; dirs := dirs w;
                log := log w ++ ["Processing " +:+ input_file] |}
         end)
    | Py.Raise e =>
        (Py.Raise e,
         {| files := files w; dirs := dirs w;
            log := log w ++ ["Processing " +:+ input_file] |})
    end.
Proof.
  intros Hfile Hsuf.
  unfold process_csv, mbind, M_bind, bind, path_exists, open_read, lift, logger_info.
  fold input_path.
  rewrite (bool_decide_eq_true_2 _ (or_introl (mk_is_Some _ _ Hfile))).
  rewrite (bool_decide_eq_true_2 _ Hsuf). simpl.
  rewrite Hfile.
  destruct (Csv.DictReader (Py.readlines content)) as [rows|e]; [|reflexivity].
  destruct (truthy output_file) as [o|]; reflexivity.
Qed.

(** A run on a directory whose name ends in [.csv]: the start is logged,
    then opening it raises. *)
Lemma process_csv_directory msg :
  files w !! PathLib.str input_path = None ->
  dirs w !! PathLib.str input_path = Some msg ->
  PathLib.suffix input_path = ".csv" ->
  process_csv input_file output_file w
  = (Py.Raise (Py.IsADirectoryError msg),
     {| files := files w; dirs := dirs w;
        log := log w ++ ["Processing " +:+ input_file] |}).
Proof.
  intros Hfile Hdir Hsuf.
  unfold process_csv, mbind, M_bind, bind, path_exists, open_read, lift, logger_info.
  fold input_path.
  rewrite (bool_decide_eq_true_2 _ (or_intror (mk_is_Some _ _ Hdir))).
  rewrite (bool_decide_eq_true_2 _ Hsuf). simpl.
  by rewrite Hfile, Hdir.
Qed.

(** The four ways a run can go, by what the input path names. *)
Lemma process_csv_cases :
  (files w !! PathLib.str input_path = None
   /\ dirs w !! PathLib.str input_path = None)
  \/ ((is_Some (files w !! PathLib.str input_path)
       \/ is_Some (dirs w !! PathLib.str input_path))
      /\ PathLib.suffix input_path ≠ ".csv")
  \/ (exists content,
        files w !! PathLib.str input_path = Some content
        /\ PathLib.suffix input_path = ".csv")
  \/ (exists msg,
        files w !! PathLib.str input_path = None
        /\ dirs w !! PathLib.str input_path = Some msg
        /\ PathLib.suffix input_path = ".csv").
Proof.
  destruct (files w !! PathLib.str input_path) as [content|] eqn:Hfile;
    destruct (dirs w !! PathLib.str input_path) as [msg|] eqn:Hdir;
    destruct (decide (PathLib.suffix input_path = ".csv")) as [Hsuf|Hsuf];
    eauto 10.
Qed.

(** What a run that returns has gone through. *)
Lemma process_csv_ok_inv result w' :
  process_csv input_file output_file w = (Py.Ok result, w') ->
  exists content,
    files w !! PathLib.str input_path = Some content
    /\ PathLib.suffix input_path = ".csv"
    /\ Csv.DictReader (Py.readlines content) = Py.Ok (data result)
    /\ count result = length (data result)
    /\ source result = PathLib.str input_path.
Proof.
  intros Hrun.
  destruct process_csv_cases
    as [[Hf Hd]|[[Hex Hsuf]|[(content & Hfile & Hsuf)|(msg & Hf & Hd & Hsuf)]]].
  - rewrite process_csv_missing in Hrun by done. discriminate.
  - rewrite process_csv_bad_suffix in Hrun by done. discriminate.
  - rewrite (process_csv_read content Hfile Hsuf) in Hrun.
    destruct (Csv.DictReader (Py.readlines content)) as [rows|e] eqn:Hrows;
      [|discriminate].
    injection Hrun as <- _. exists content. auto.
  - rewrite (process_csv_directory msg) in Hrun by done. discriminate.
Qed.

(** Every existing [.csv] file of at most [Csv.field_limit] characters
    is converted: the run returns. *)
Lemma process_csv_succeeds content :
  files w !! PathLib.str input_path = Some content ->
  PathLib.suffix input_path = ".csv" ->
  (N.of_nat (String.length content) <= Csv.field_limit)%N ->
  exists result w', process_csv input_file output_file w = (Py.Ok result, w').
Proof.
  intros Hfile Hsuf Hlen. rewrite (process_csv_read content Hfile Hsuf).
  destruct (DictReader_total content Hlen) as (rows & ->). eauto.
Qed.

End ProcessCsvRuns.

(** ** The converter: result and preconditions *)

Section Converter.
Import DataProcessor.

(** C1. Whenever [process_csv] returns, the [count] of the result is the
    number of elements of its [data]. *)
Theorem process_csv_count_is_length input_file output_file w result w' :
  process_csv input_file output_file w = (Py.Ok result, w') ->
  count result = length (data result).
Proof.
  intros Hrun.
  destruct (process_csv_ok_inv _ _ _ _ _ Hrun) as (content & _ & _ & _ & Hcount & _).
  exact Hcount.
Qed.

Lemma process_csv_count_is_length_witness :
  exists result w',
    process_csv "t.csv" None (Samples.world_with "t.csv" Samples.csv_ragged)
    = (Py.Ok result, w')
    /\ count result = length (data result).
Proof.
  destruct (process_csv "t.csv" None (Samples.world_with "t.csv" Samples.csv_ragged))
    as [[result|e] w'] eqn:Hrun.
  - exists result, w'. split; [reflexivity|].
    exact (process_csv_count_is_length _ _ _ _ _ Hrun).
  - vm_compute in Hrun. discriminate.
Defined.

(** C2. A CSV file that holds [a,b\n1,2\n3,4] is converted to the two
    rows [{a: 1, b: 2}] and [{a: 3, b: 4}], in this order, with a
    [count] of 2. *)
Theorem process_csv_two_rows input_file output_file w :
  files w !! PathLib.str (PathLib.parse input_file) = Some Samples.csv_two_rows ->
  PathLib.suffix (PathLib.parse input_file) = ".csv" ->
  exists w',
    process_csv input_file output_file w
    = (Py.Ok {| data := [ [(Some "a", Csv.Str "1"); (Some "b", Csv.Str "2")];
                          [(Some "a", Csv.Str "3"); (Some "b", Csv.Str "4")] ];
                count := 2;
                source := PathLib.str (PathLib.parse input_file) |}, w').
Proof.
  intros Hfile Hsuf. rewrite (process_csv_read _ _ _ _ Hfile Hsuf).
  replace (Csv.DictReader (Py.readlines Samples.csv_two_rows))
    with (Py.Ok [ [(Some "a", Csv.Str "1"); (Some "b", Csv.Str "2")];
                  [(Some "a", Csv.Str "3"); (Some "b", Csv.Str "4")] ])
    by (vm_compute; reflexivity).
  eexists. reflexivity.
Qed.

Lemma process_csv_two_rows_witness :
  exists w',
    process_csv "t.csv" (Some "out/t.json")
                (Samples.world_with "t.csv" Samples.csv_two_rows)
    = (Py.Ok {| data := [ [(Some "a", Csv.Str "1"); (Some "b", Csv.Str "2")];
                          [(Some "a", Csv.Str "3"); (Some "b", Csv.Str "4")] ];
                count := 2;
                source := "t.csv" |}, w').
Proof.
  apply (process_csv_two_rows "t.csv" (Some "out/t.json")
           (Samples.world_with "t.csv" Samples.csv_two_rows));
    vm_compute; reflexivity.
Defined.



(** C10. The test of the extension is case-sensitive: an existing input
    path whose suffix is not exactly [.csv], such as [data.CSV], makes
    [process_csv] raise [ValueError]. *)
Theorem process_csv_suffix_case_sensitive input_file output_file w :
  is_Some (files w !! PathLib.str (PathLib.parse input_file)) ->
  PathLib.suffix (PathLib.parse input_file) ≠ ".csv" ->
  fst (process_csv input_file output_file w)
  = Py.Raise (Py.ValueError "Input file must be a CSV file").
Proof.
  intros Hsome Hsuf. rewrite process_csv_bad_suffix by auto. reflexivity.
Qed.

Lemma process_csv_suffix_case_sensitive_witness :
  PathLib.suffix (PathLib.parse "data.CSV") = ".CSV"
  /\ fst (process_csv "data.CSV" None
                      (Samples.world_with "data.CSV" Samples.csv_two_rows))
     = Py.Raise (Py.ValueError "Input file must be a CSV file").
Proof.
  split; [reflexivity|].
  apply (process_csv_suffix_case_sensitive "data.CSV" None
           (Samples.world_with "data.CSV" Samples.csv_two_rows)).
  - vm_compute. eexists. reflexivity.
  - vm_compute. discriminate.
Defined.

End Converter.

(** ** The converter: rows of the wrong length *)

Section RaggedRows.
Import DataProcessor.

(** C6 as the specification words it does not hold: in the sample file
    the record [1] is shorter than the header [a,b], and the row made
    from it still has the key [b]. *)
Lemma process_csv_short_row_keeps_key :
  ~ (forall result w',
       process_csv "t.csv" None (Samples.world_with "t.csv" Samples.csv_ragged)
       = (Py.Ok result, w') ->
       forall row, data result !! 0 = Some row ->
                   Py.dict_get (Some "b") row = None).
Proof.
  intros Hclaim.
  destruct (process_csv "t.csv" None (Samples.world_with "t.csv" Samples.csv_ragged))
    as [result w'] eqn:Hrun.
  vm_compute in Hrun. injection Hrun as <- <-.
  specialize (Hclaim _ _ eq_refl _ eq_refl). discriminate.
Qed.

(** C6, amended.  The rows of the result are made, in order, from the
    records after the header that are not empty.  A record with fewer
    values than the header has columns gives a row in which every column
    it does not reach is present with the value [None]; a record with
    more values gives a row that holds the values beyond the header, as a
    list, under the key [None]. *)
Theorem process_csv_ragged_rows
    input_file output_file w result w' content fieldnames records :
  files w !! PathLib.str (PathLib.parse input_file) = Some content ->
  Csv.reader (Py.readlines content) = Py.Ok (fieldnames :: records) ->
  process_csv input_file output_file w = (Py.Ok result, w') ->
  data result = Csv.DictReader_row fieldnames <$> filter (fun row => row ≠ []) records
  /\ forall record,
       (length record < length fieldnames ->
        forall key, key ∈ drop (length record) fieldnames ->
          Py.dict_get (Some key) (Csv.DictReader_row fieldnames record)
          = Some Csv.NoneVal)
       /\ (length fieldnames < length record ->
           Py.dict_get None (Csv.DictReader_row fieldnames record)
           = Some (Csv.Rest (drop (length fieldnames) record))).
Proof.
  intros Hfile Hrows Hrun.
  destruct (process_csv_ok_inv _ _ _ _ _ Hrun) as (content' & Hfile' & _ & Hdata & _).
  rewrite Hfile in Hfile'. injection Hfile' as <-.
  unfold Csv.DictReader in Hdata. rewrite Hrows in Hdata. simpl in Hdata.
  injection Hdata as <-. split; [reflexivity|].
  intros record. split.
  - intros Hlen key Hkey. by apply DictReader_row_short.
  - apply DictReader_row_long.
Qed.

Lemma process_csv_ragged_rows_witness :
  exists result w',
    process_csv "t.csv" None (Samples.world_with "t.csv" Samples.csv_ragged)
    = (Py.Ok result, w')
    /\ data result
       = [ [(Some "a", Csv.Str "1"); (Some "b", Csv.NoneVal)];
           [(Some "a", Csv.Str "3"); (Some "b", Csv.Str "4");
            (None, Csv.Rest ["5"; "6"])] ]
    /\ Py.dict_get (Some "b") (Csv.DictReader_row ["a"; "b"] ["1"]) = Some Csv.NoneVal
    /\ Py.dict_get None (Csv.DictReader_row ["a"; "b"] ["3"; "4"; "5"; "6"])
       = Some (Csv.Rest ["5"; "6"]).
Proof.
  destruct (process_csv "t.csv" None (Samples.world_with "t.csv" Samples.csv_ragged))
    as [[result|e] w'] eqn:Hrun; [|vm_compute in Hrun; discriminate].
  destruct (process_csv_ragged_rows "t.csv" None
              (Samples.world_with "t.csv" Samples.csv_ragged) result w'
              Samples.csv_ragged ["a"; "b"] [["1"]; ["3"; "4"; "5"; "6"]]
              ltac:(vm_compute; reflexivity) ltac:(vm_compute; reflexivity) Hrun)
    as [Hdata Hrec].
  exists result, w'. split; [reflexivity|]. split; [exact Hdata|]. split.
  - apply (proj1 (Hrec ["1"])); [simpl; lia|]. simpl. apply elem_of_cons. by left.
  - apply (proj2 (Hrec ["3"; "4"; "5"; "6"])). simpl. lia.
Defined.

End RaggedRows.

(** ** The converter: the output document *)

Section OutputDocument.
Import DataProcessor.

(** C4. The document written depends on the input file alone: in any
    two worlds in which the input file has the same content, for instance
    before and after a first conversion, a conversion to the same output
    path returns the same result and leaves the same text in the output
    file, the serialised result and nothing else. *)
Theorem process_csv_output_deterministic
    input_file output_file w1 w2 result w1' :
  output_file ≠ "" ->
  files w1 !! PathLib.str (PathLib.parse input_file)
  = files w2 !! PathLib.str (PathLib.parse input_file) ->
  process_csv input_file (Some output_file) w1 = (Py.Ok result, w1') ->
  exists w2',
    process_csv input_file (Some output_file) w2 = (Py.Ok result, w2')
    /\ files w2' !! PathLib.str (PathLib.parse output_file)
       = files w1' !! PathLib.str (PathLib.parse output_file)
    /\ files w1' !! PathLib.str (PathLib.parse output_file)
       = Some (Json.dumps (result_json result)).
Proof.
  intros Hout Hsame Hrun.
  destruct (process_csv_ok_inv _ _ _ _ _ Hrun) as (content & Hfile & Hsuf & Hdata & _).
  rewrite (process_csv_read _ _ _ _ Hfile Hsuf) in Hrun.
  rewrite Hsame in Hfile.
  rewrite (process_csv_read _ _ _ _ Hfile Hsuf).
  destruct (Csv.DictReader (Py.readlines content)) as [rows|e]; [|discriminate].
  assert (truthy (Some output_file) = Some output_file) as ->
    by (destruct output_file; simpl; congruence).
  assert (truthy (Some output_file) = Some output_file) as Htruthy
    by (destruct output_file; simpl; congruence).
  rewrite Htruthy in Hrun. cbv zeta in Hrun. injection Hrun as <- <-.
  eexists. split; [reflexivity|]. simpl.
  rewrite !lookup_insert_eq. auto.
Qed.

Lemma process_csv_output_deterministic_witness :
  let w1 := Samples.world_with "t.csv" Samples.csv_two_rows in
  let w1' := snd (process_csv "t.csv" (Some "out/t.json") w1) in
  let w2' := snd (process_csv "t.csv" (Some "out/t.json") w1') in
  files w2' !! "out/t.json" = files w1' !! "out/t.json"
  /\ is_Some (files w1' !! "out/t.json").
Proof.
  intros w1 w1' w2'.
  pose (result :=
          {| data := [ [(Some "a", Csv.Str "1"); (Some "b", Csv.Str "2")];
                       [(Some "a", Csv.Str "3"); (Some "b", Csv.Str "4")] ];
             count := 2; source := "t.csv" |}).
  assert (process_csv "t.csv" (Some "out/t.json") w1 = (Py.Ok result, w1')) as Hrun1
    by (vm_compute; reflexivity).
  destruct (process_csv_output_deterministic "t.csv" "out/t.json" w1 w1' result w1'
              ltac:(discriminate)
              ltac:(vm_compute; reflexivity)
              Hrun1)
    as (w' & Hrun2 & Hsame & Hdoc).
  assert (w2' = w') as -> by (subst w2'; rewrite Hrun2; reflexivity).
  split; [exact Hsame|].
  change (PathLib.str (PathLib.parse "out/t.json")) with "out/t.json" in Hdoc.
  rewrite Hdoc. eexists. reflexivity.
Defined.

End OutputDocument.

(** ** The converter: files without rows *)

Section HeaderOnly.
Import DataProcessor.

(** C9 as the specification words it does not hold: a file whose only
    line is a header of 131073 characters without a comma makes the
    parser raise, the field being longer than the field size limit. *)
Lemma process_csv_long_header_raises :
  length (Py.readlines Samples.csv_long_header) = 1
  /\ fst (process_csv "t.csv" None
                      (Samples.world_with "t.csv" Samples.csv_long_header))
     = Py.Raise (Py.CsvError "field larger than field limit (131072)").
Proof. split; vm_compute; reflexivity. Qed.

(** The fields the scan finds are those the reader returns. *)
Example field_lengths_quoted :
  Spec.field_lengths Cases.csv_quoted_header = [1; 3; 3]%N
  /\ Csv.reader [Cases.csv_quoted_header]
     = Py.Ok [["a"; "b,c"; String "d" (String Csv.quotechar "e")]].
Proof. split; vm_compute; reflexivity. Qed.

(** C9, amended.  An existing [.csv] file that is empty, or holds one
    line in which no field is longer than 131072 characters, is
    converted without error to a result with no row and a [count] of
    0. *)
Theorem process_csv_header_only input_file output_file w content :
  files w !! PathLib.str (PathLib.parse input_file) = Some content ->
  PathLib.suffix (PathLib.parse input_file) = ".csv" ->
  length (Py.readlines content) <= 1 ->
  Forall Spec.fields_within_limit (Py.readlines content) ->
  exists w',
    process_csv input_file output_file w
    = (Py.Ok {| data := []; count := 0;
                source := PathLib.str (PathLib.parse input_file) |}, w').
Proof.
  intros Hfile Hsuf Hlines Hall.
  rewrite (process_csv_read _ _ _ _ Hfile Hsuf).
  assert (Csv.DictReader (Py.readlines content) = Py.Ok []) as ->.
  { pose proof (readlines_ok content) as Hok.
    destruct (Py.readlines content) as [|line [|line' lines]]; simpl in Hlines.
    - reflexivity.
    - apply Forall_inv in Hok. apply Forall_inv in Hall.
      by apply DictReader_header_line.
    - lia. }
  eexists. reflexivity.
Qed.

Lemma process_csv_header_only_witness :
  (exists w',
     process_csv "t.csv" None (Samples.world_with "t.csv" Samples.csv_header_only)
     = (Py.Ok {| data := []; count := 0; source := "t.csv" |}, w'))
  /\ (exists w',
        process_csv "t.csv" None (Samples.world_with "t.csv" "")
        = (Py.Ok {| data := []; count := 0; source := "t.csv" |}, w'))
  /\ (exists w',
        process_csv "t.csv" None (Samples.world_with "t.csv" Cases.csv_full_header)
        = (Py.Ok {| data := []; count := 0; source := "t.csv" |}, w')).
Proof.
  split; [|split].
  - apply (process_csv_header_only "t.csv" None
             (Samples.world_with "t.csv" Samples.csv_header_only)
             Samples.csv_header_only);
      [vm_compute; reflexivity | vm_compute; reflexivity | vm_compute; lia|].
    apply (bool_decide_unpack _). vm_compute. reflexivity.
  - apply (process_csv_header_only "t.csv" None (Samples.world_with "t.csv" "") "");
      [vm_compute; reflexivity | vm_compute; reflexivity | vm_compute; lia|].
    apply (bool_decide_unpack _). vm_compute. reflexivity.
  - apply (process_csv_header_only "t.csv" None
             (Samples.world_with "t.csv" Cases.csv_full_header)
             Cases.csv_full_header (lookup_insert_eq _ _ _) eq_refl).
    + assert (length (Py.readlines Cases.csv_full_header) = 1) as ->
        by (vm_compute; reflexivity). lia.
    + apply (bool_decide_unpack _). vm_compute. reflexivity.
Defined.

End HeaderOnly.

(** ** The statistics reporter *)

Section Reporter.
Import GitStats.

(** A log without any line is counted as one author: stripping and
    splitting the empty output gives one empty piece. *)
Lemma get_author_count_empty_log repo_path :
  get_author_count (Samples.git_prints "") repo_path = Py.Ok 1.
Proof. vm_compute. reflexivity. Qed.



(** Where the rest of C3 holds: for a log of one or more commits whose
    emails are not empty and hold no whitespace, [get_author_count]
    returns the number of distinct emails. *)
Lemma get_author_count_distinct_emails subprocess_run repo_path emails :
  emails ≠ [] ->
  Forall Shape.address emails ->
  subprocess_run ["git"; "-C"; repo_path; "log"; "--format=%ae"]
  = {| returncode := 0; stdout := Spec.log_of emails |} ->
  get_author_count subprocess_run repo_path
  = Py.Ok (size (list_to_set emails : gset string)).
Proof.
  intros Hne Hall Hrun. unfold get_author_count. rewrite Hrun. simpl.
  by rewrite strip_split_log_of.
Qed.

Example get_author_count_three_commits :
  get_author_count (Samples.git_prints (Spec.log_of ["a@x.org"; "b@x.org"; "a@x.org"]))
                   "/repo"
  = Py.Ok 2.
Proof.
  rewrite (get_author_count_distinct_emails _ _ ["a@x.org"; "b@x.org"; "a@x.org"]).
  - reflexivity.
  - discriminate.
  - repeat constructor; discriminate.
  - reflexivity.
Qed.



(** C7. In text format the record with 5 commits, 2 authors and 3
    branches is printed as a title, a rule of 40 equals signs and the
    lines [Commits:  5], [Authors:  2] and [Branches: 3]. *)
Theorem display_stats_text_5_2_3 :
  display_stats Samples.stats_5_2_3 "text"
  = Py.print "Git Repository Statistics"
    +:+ Py.print "========================================"
    +:+ Py.print "Commits:  5"
    +:+ Py.print "Authors:  2"
    +:+ Py.print "Branches: 3".
Proof. vm_compute. reflexivity. Qed.

End Reporter.

(** ** Branches *)

Section Branches.
Import GitStats.

(** C8. When [git branch -a] succeeds, [get_branch_count] returns a
    natural number, the number of lines of the listing that are not
    blank, that is, that hold a character other than whitespace. *)
Theorem get_branch_count_non_blank_lines subprocess_run repo_path :
  returncode (subprocess_run ["git"; "-C"; repo_path; "branch"; "-a"]) = 0%Z ->
  get_branch_count subprocess_run repo_path
  = Py.Ok (Spec.non_blank_lines
             (stdout (subprocess_run ["git"; "-C"; repo_path; "branch"; "-a"]))).
Proof.
  intros Hrc. unfold get_branch_count, Spec.non_blank_lines.
  rewrite bool_decide_eq_false_2 by (rewrite Hrc; auto).
  rewrite length_map. do 2 f_equal.
  apply list_filter_iff. intros line.
  rewrite strip_empty_iff. destruct (Spec.blank line); split; congruence.
Qed.

Lemma get_branch_count_non_blank_lines_witness :
  get_branch_count
    (Samples.git_prints ("* main" +:+ Py.nl +:+ "  dev" +:+ Py.nl +:+ "   " +:+ Py.nl
                         +:+ "  remotes/origin/main" +:+ Py.nl))
    "/repo"
  = Py.Ok 3.
Proof.
  exact (get_branch_count_non_blank_lines
           (Samples.git_prints ("* main" +:+ Py.nl +:+ "  dev" +:+ Py.nl +:+ "   " +:+ Py.nl
                                +:+ "  remotes/origin/main" +:+ Py.nl))
           "/repo" eq_refl).
Defined.

End Branches.


(** * Further properties *)

(** ** What [process_csv] raises *)

Section ParserErrors.
Import Csv.

Lemma parse_add_char_limit self c :
  Facts.ok_or_limit
    (fun self' => state self' = state self) (parse_add_char self c).
Proof.
  unfold parse_add_char. destruct (_ <=? _)%N; simpl; reflexivity.
Qed.

(** A character that is no line break, from any state but [EAT_CRNL]:
    the parser stays out of [EAT_CRNL], or the field is too long. *)
Lemma parse_process_char_plain_limit self c :
  is_crnl c = false ->
  state self ≠ EAT_CRNL ->
  Facts.ok_or_limit (fun self' => state self' ≠ EAT_CRNL)
                    (parse_process_char self (Chr c)).
Proof.
  intros Hc Hst. destruct self as [st fs f n]. simpl in *.
  unfold parse_process_char, start_field, parse_add_char; simpl. rewrite Hc.
  destruct st; try done;
    destruct (Ascii.eqb c quotechar); destruct (Ascii.eqb c delimiter);
    destruct (field_limit <=? n)%N; simpl; done.
Qed.

Lemma parse_line_end_limit self tail :
  tail = "" \/ tail = Py.nl ->
  Facts.ok_or_limit
    (fun self' => state self' = START_RECORD \/ state self' = IN_QUOTED_FIELD)
    (parse_line self tail).
Proof.
  intros [-> | ->]; destruct self as [st fs f n];
    unfold parse_line, parse_process_char, start_field, parse_add_char; simpl;
    destruct st; simpl; auto;
    destruct (field_limit <=? n)%N; simpl; auto.
Qed.

Lemma parse_line_limit self line :
  Shape.line_ok line ->
  state self ≠ EAT_CRNL ->
  Facts.ok_or_limit
    (fun self' => state self' = START_RECORD \/ state self' = IN_QUOTED_FIELD)
    (parse_line self line).
Proof.
  intros (body & Hbody & Hline) Hst.
  assert (exists tail, (tail = "" \/ tail = Py.nl) /\ line = body +:+ tail)
    as (tail & Htail & ->).
  { destruct Hline as [->| ->]; [exists ""|exists Py.nl]; split; auto.
    by rewrite app_empty_r. }
  clear Hline. revert self Hst. induction body as [|c body IH]; intros self Hst.
  - by apply parse_line_end_limit.
  - simpl in Hbody. apply andb_true_iff in Hbody as [Hc Hbody].
    apply negb_true_iff in Hc. rewrite app_cons. cbn [parse_line].
    pose proof (parse_process_char_plain_limit self c Hc Hst) as Hstep.
    destruct (parse_process_char self (Chr c)) as [self1|e]; simpl in *.
    + by apply IH.
    + exact Hstep.
Qed.

Lemma reader_rows_limit lines self e :
  Forall Shape.line_ok lines ->
  state self ≠ EAT_CRNL ->
  reader_rows self lines = Py.Raise e ->
  e = Facts.limit_error.
Proof.
  intros Hok. revert self.
  induction Hok as [|line lines Hline Hlines IH]; intros self Hst.
  - simpl. destruct (_ || _); discriminate.
  - cbn [reader_rows].
    pose proof (parse_line_limit self line Hline Hst) as Hparse.
    destruct (parse_line self line) as [self'|e']; simpl in *.
    + destruct Hparse as [Hst'|Hst']; rewrite Hst'; simpl.
      * destruct (reader_rows parse_reset lines) as [rows|e'] eqn:Hrows; simpl;
          [discriminate|].
        intros [= <-]. by apply (IH parse_reset).
      * apply IH. rewrite Hst'. discriminate.
    + intros [= <-]. exact Hparse.
Qed.

(** Reading a text file as CSV fails in one way only. *)
Lemma DictReader_limit content e :
  DictReader (Py.readlines content) = Py.Raise e -> e = Facts.limit_error.
Proof.
  unfold DictReader, reader.
  destruct (reader_rows parse_reset (Py.readlines content)) as [rows|e'] eqn:Hrows;
    simpl.
  - destruct rows; discriminate.
  - intros [= <-].
    apply (reader_rows_limit (Py.readlines content) parse_reset);
      [apply readlines_ok|discriminate|exact Hrows].
Qed.

End ParserErrors.

Section ConverterEffects.
Import DataProcessor.

(** X1. When [process_csv] fails with an error of the csv parser, the
    error is that a field is larger than the field size limit: the
    parser's error about a line break inside an unquoted field cannot
    occur, the file being read in text mode. *)
Theorem process_csv_raises input_file output_file w msg w' :
  process_csv input_file output_file w = (Py.Raise (Py.CsvError msg), w') ->
  msg = "field larger than field limit (131072)".
Proof.
  intros Hrun.
  destruct (process_csv_cases input_file w)
    as [[Hf Hd]|[[Hex Hsuf]|[(content & Hfile & Hsuf)|(msg' & Hf & Hd & Hsuf)]]].
  - rewrite process_csv_missing in Hrun by done. discriminate.
  - rewrite process_csv_bad_suffix in Hrun by done. discriminate.
  - rewrite (process_csv_read _ _ _ content Hfile Hsuf) in Hrun.
    destruct (Csv.DictReader (Py.readlines content)) as [rows|e'] eqn:Hrows;
      [discriminate|].
    injection Hrun as -> _.
    pose proof (DictReader_limit _ _ Hrows) as Hlimit. by injection Hlimit.
  - rewrite (process_csv_directory _ _ _ msg') in Hrun by done. discriminate.
Qed.

Lemma process_csv_raises_witness :
  Csv.DictReader (Py.readlines Samples.csv_long_header)
  = Py.Raise (Py.CsvError "field larger than field limit (131072)")
  /\ "field larger than field limit (131072)"
     = "field larger than field limit (131072)".
Proof.
  assert (Csv.DictReader (Py.readlines Samples.csv_long_header)
          = Py.Raise (Py.CsvError "field larger than field limit (131072)"))
    as Hrows by (vm_compute; reflexivity).
  split; [exact Hrows|].
  pose proof (process_csv_read "t.csv" None
                (Samples.world_with "t.csv" Samples.csv_long_header)
                Samples.csv_long_header (lookup_insert_eq _ _ _) eq_refl) as Hrun.
  rewrite Hrows in Hrun.
  exact (process_csv_raises _ _ _ _ _ Hrun).
Defined.

(** The files after a run that raises are the files before it. *)
Lemma process_csv_raise_keeps_files input_file output_file w e w' :
  process_csv input_file output_file w = (Py.Raise e, w') ->
  files w' = files w.
Proof.
  intros Hrun.
  destruct (process_csv_cases input_file w)
    as [[Hf Hd]|[[Hex Hsuf]|[(content & Hfile & Hsuf)|(msg & Hf & Hd & Hsuf)]]].
  - rewrite process_csv_missing in Hrun by done. by injection Hrun as _ <-.
  - rewrite process_csv_bad_suffix in Hrun by done. by injection Hrun as _ <-.
  - rewrite (process_csv_read _ _ _ content Hfile Hsuf) in Hrun.
    destruct (Csv.DictReader (Py.readlines content)); [discriminate|].
    by injection Hrun as _ <-.
  - rewrite (process_csv_directory _ _ _ msg) in Hrun by done.
    by injection Hrun as _ <-.
Qed.




(** X3. The messages logged: none when a precondition fails; the start
    message when the run gets to open the file; after it, the message
    that the output was saved exactly when the run returns and has an
    output path that is not empty. *)
Theorem process_csv_log input_file output_file w r w' :
  process_csv input_file output_file w = (r, w') ->
  log w'
  = (log w
     ++ match r with
        | Py.Ok _ =>
            ("Processing " +:+ input_file)
              :: match truthy output_file with
                 | Some o => ["Saved output to " +:+ o]
                 | None => []
                 end
        | Py.Raise (Py.FileNotFoundError _) | Py.Raise (Py.ValueError _) => []
        | Py.Raise _ => ["Processing " +:+ input_file]
        end)%list.
Proof.
  intros Hrun.
  destruct (process_csv_cases input_file w)
    as [[Hf Hd]|[[Hex Hsuf]|[(content & Hfile & Hsuf)|(msg & Hf & Hd & Hsuf)]]].
  - rewrite process_csv_missing in Hrun by done.
    injection Hrun as <- <-. by rewrite app_nil_r.
  - rewrite process_csv_bad_suffix in Hrun by done.
    injection Hrun as <- <-. by rewrite app_nil_r.
  - rewrite (process_csv_read _ _ _ content Hfile Hsuf) in Hrun.
    destruct (Csv.DictReader (Py.readlines content)) as [rows|e'] eqn:Hrows.
    + destruct (truthy output_file) as [o|]; cbv zeta in Hrun;
        injection Hrun as <- <-; simpl; by rewrite <- ?app_assoc.
    + injection Hrun as <- <-. rewrite (DictReader_limit _ _ Hrows). reflexivity.
  - rewrite (process_csv_directory _ _ _ msg) in Hrun by done.
    by injection Hrun as <- <-.
Qed.

Lemma process_csv_log_witness :
  let w := Samples.world_with "t.csv" Samples.csv_two_rows in
  log (snd (process_csv "t.csv" (Some "out/t.json") w))
  = ["Processing t.csv"; "Saved output to out/t.json"]
  /\ log (snd (process_csv "tables.csv" None Cases.world_with_dir))
     = ["Processing tables.csv"].
Proof.
  intros w. split.
  - rewrite (process_csv_log "t.csv" (Some "out/t.json") w
               (fst (process_csv "t.csv" (Some "out/t.json") w))
               (snd (process_csv "t.csv" (Some "out/t.json") w))
               (surjective_pairing _)).
    vm_compute. reflexivity.
  - rewrite (process_csv_log "tables.csv" None Cases.world_with_dir _ _
               (surjective_pairing _)).
    vm_compute. reflexivity.
Defined.

(** X19. Without an output path, or with an empty one, every regular
    [.csv] file of at most 131072 characters is converted: the run
    returns the rows of the file with their number and the input path,
    and does no more to the world than log that it started. *)
Theorem process_csv_converts input_file output_file w content :
  files w !! PathLib.str (PathLib.parse input_file) = Some content ->
  PathLib.suffix (PathLib.parse input_file) = ".csv" ->
  (N.of_nat (String.length content) <= Csv.field_limit)%N ->
  output_file = None \/ output_file = Some "" ->
  exists rows,
    Csv.DictReader (Py.readlines content) = Py.Ok rows
    /\ process_csv input_file output_file w
       = (Py.Ok {| data := rows; count := length rows;
                   source := PathLib.str (PathLib.parse input_file) |},
          {| files := files w; dirs := dirs w;
             log := log w ++ ["Processing " +:+ input_file] |}).
Proof.
  intros Hfile Hsuf Hlen Hnone.
  destruct (DictReader_total content Hlen) as (rows & Hrows).
  exists rows. split; [exact Hrows|].
  rewrite (process_csv_read _ _ _ content Hfile Hsuf), Hrows.
  by destruct Hnone as [->| ->].
Qed.

Lemma process_csv_converts_witness :
  exists rows,
    Csv.DictReader (Py.readlines Cases.csv_repeated) = Py.Ok rows
    /\ process_csv "./tables/t.csv" (Some "")
                   (Samples.world_with "tables/t.csv" Cases.csv_repeated)
       = (Py.Ok {| data := rows; count := length rows; source := "tables/t.csv" |},
          {| files := {[ "tables/t.csv" := Cases.csv_repeated ]};
             dirs := ∅;
             log := ["Processing ./tables/t.csv"] |}).
Proof.
  apply (process_csv_converts "./tables/t.csv" (Some "")
           (Samples.world_with "tables/t.csv" Cases.csv_repeated)
           Cases.csv_repeated).
  - vm_compute. reflexivity.
  - vm_compute. reflexivity.
  - vm_compute. discriminate.
  - by right.
Defined.

End ConverterEffects.

(** ** Files without quotes *)

Section PlainFiles.
Import Csv.

Lemma string_of_list_ascii_snoc l c w :
  String.string_of_list_ascii (l ++ [c]) +:+ w
  = String.string_of_list_ascii l +:+ String c w.
Proof.
  induction l as [|a l IH]; [done|].
  cbn [app String.string_of_list_ascii]. rewrite !app_cons. by f_equal.
Qed.

Lemma glue_empty sep s : Facts.glue "" (Py.split sep s) = Py.split sep s.
Proof.
  pose proof (split_not_nil sep s). by destruct (Py.split sep s).
Qed.

Lemma length_app s t :
  String.length (s +:+ t) = String.length s + String.length t.
Proof.
  induction s as [|c s IH]; [done|]. rewrite app_cons. simpl. by rewrite IH.
Qed.

(** A run of characters without quote and line break, from inside a
    record: the fields are the pieces between the commas, the first
    piece joined to the field already begun. *)
Lemma parse_line_plain_fields body tail self :
  Shape.no_crnl body = true ->
  Plain.no_quote body = true ->
  tail = "" \/ tail = Py.nl ->
  state self = START_FIELD \/ state self = IN_FIELD ->
  (field_len self + N.of_nat (String.length body) <= field_limit)%N ->
  exists self',
    parse_line self (body +:+ tail) = Py.Ok self'
    /\ state self' = START_RECORD
    /\ fields self'
       = (fields self
          ++ Facts.glue (String.string_of_list_ascii (rev (field self)))
                        (Py.split delimiter body))%list.
Proof.
  intros Hcrnl Hquote Htail. revert self.
  induction body as [|c body IH]; intros self Hst Hlen.
  - destruct self as [st fs f n]; simpl in Hst.
    change ("" +:+ tail) with tail. cbn [Py.split Facts.glue]. rewrite app_empty_r.
    destruct Htail as [-> | ->], Hst as [-> | ->];
      eexists; (split; [reflexivity|]); simpl; auto.
  - cbn [Shape.no_crnl Plain.no_quote] in Hcrnl, Hquote.
    apply andb_true_iff in Hcrnl as [Hc Hcrnl]. apply negb_true_iff in Hc.
    apply andb_true_iff in Hquote as [Hq Hquote]. apply negb_true_iff in Hq.
    rewrite app_cons. cbn [parse_line String.length] in *.
    destruct (Ascii.eqb c delimiter) eqn:Hd.
    + assert (parse_process_char self (Chr c)
              = Py.Ok (set_state START_FIELD (parse_save_field self))) as ->.
      { destruct self as [st fs f n]; simpl in Hst.
        destruct Hst as [-> | ->];
          unfold parse_process_char, start_field; simpl; by rewrite Hc, ?Hq, Hd. }
      simpl.
      destruct (IH Hcrnl Hquote (set_state START_FIELD (parse_save_field self)))
        as (self' & Hparse & Hst' & Hfields); [by left|simpl; lia|].
      exists self'. split; [exact Hparse|]. split; [exact Hst'|].
      rewrite Hfields. cbn [Py.split]. rewrite Hd. simpl.
      rewrite glue_empty, app_empty_r, <- app_assoc. reflexivity.
    + assert (parse_process_char self (Chr c)
              = Py.Ok {| state := IN_FIELD; fields := fields self;
                         field := c :: field self;
                         field_len := field_len self + 1 |}) as ->.
      { destruct self as [st fs f n]; simpl in Hst, Hlen.
        destruct Hst as [-> | ->];
          unfold parse_process_char, start_field; simpl;
          rewrite Hc, ?Hq, Hd, parse_add_char_ok by (simpl; lia); reflexivity. }
      simpl.
      destruct (IH Hcrnl Hquote
                  {| state := IN_FIELD; fields := fields self;
                     field := c :: field self;
                     field_len := field_len self + 1 |})
        as (self' & Hparse & Hst' & Hfields); [by right|simpl; lia|].
      exists self'. split; [exact Hparse|]. split; [exact Hst'|].
      rewrite Hfields. simpl. f_equal. rewrite Hd.
      pose proof (split_not_nil delimiter body).
      destruct (Py.split delimiter body) as [|piece pieces]; [done|].
      simpl. by rewrite string_of_list_ascii_snoc.
Qed.

Lemma chomp_body body :
  Shape.no_crnl body = true ->
  Plain.chomp body = body /\ Plain.chomp (body +:+ Py.nl) = body.
Proof.
  induction body as [|c body IH]; [done|].
  cbn [Shape.no_crnl]. intros [Hc Hbody]%andb_true_iff.
  apply negb_true_iff in Hc. unfold is_crnl in Hc.
  apply orb_false_iff in Hc as [Hlf _].
  destruct (IH Hbody) as [IH1 IH2]. rewrite app_cons. split.
  - cbn [Plain.chomp]. destruct body; [by rewrite Hlf|]. by rewrite IH1.
  - cbn [Plain.chomp]. destruct (body +:+ Py.nl) eqn:Happ.
    + by destruct body.
    + by rewrite IH2.
Qed.

(** A line without quote, read from the start of a record, gives the
    record of the line and leaves the parser at the start of a record. *)
Lemma parse_line_plain line :
  Shape.line_ok line ->
  Plain.no_quote line = true ->
  (N.of_nat (String.length line) <= field_limit)%N ->
  exists self',
    parse_line parse_reset line = Py.Ok self'
    /\ state self' = START_RECORD
    /\ fields self' = Plain.record_of_line line.
Proof.
  intros (body & Hcrnl & Hline) Hquote Hlen.
  assert (exists tail, (tail = "" \/ tail = Py.nl) /\ line = body +:+ tail)
    as (tail & Htail & ->).
  { destruct Hline as [->| ->]; [exists ""|exists Py.nl]; split; auto.
    by rewrite app_empty_r. }
  clear Hline. rewrite length_app in Hlen.
  assert (Plain.no_quote body = true) as Hquote'.
  { clear -Hquote. induction body as [|c body IH]; [done|].
    rewrite app_cons in Hquote. cbn [Plain.no_quote] in *.
    apply andb_true_iff in Hquote as [-> Hquote]. by apply IH. }
  assert (Plain.chomp (body +:+ tail) = body) as Hchomp.
  { destruct (chomp_body body Hcrnl) as [H1 H2].
    destruct Htail as [-> | ->]; [by rewrite app_empty_r|done]. }
  unfold Plain.record_of_line. rewrite Hchomp.
  destruct body as [|c body].
  - change ("" +:+ tail) with tail.
    destruct Htail as [-> | ->]; eexists; (split; [reflexivity|]); auto.
  - pose proof Hcrnl as Hc. cbn [Shape.no_crnl] in Hc.
    apply andb_true_iff in Hc as [Hc _]. apply negb_true_iff in Hc.
    assert (parse_line parse_reset (String c body +:+ tail)
            = parse_line (set_state START_FIELD parse_reset) (String c body +:+ tail))
      as ->.
    { rewrite app_cons. cbn [parse_line].
      assert (parse_process_char parse_reset (Chr c)
              = parse_process_char (set_state START_FIELD parse_reset) (Chr c)) as ->;
        [|done].
      unfold parse_process_char, parse_reset, set_state. simpl. by rewrite Hc. }
    destruct (parse_line_plain_fields (String c body) tail
                (set_state START_FIELD parse_reset) Hcrnl Hquote' Htail)
      as (self' & Hparse & Hst' & Hfields); [by left|simpl in *; lia|].
    exists self'. split; [exact Hparse|]. split; [exact Hst'|].
    rewrite Hfields. exact (glue_empty delimiter (String c body)).
Qed.

Lemma reader_rows_plain lines :
  Forall Shape.line_ok lines ->
  Forall (fun line => Plain.no_quote line = true) lines ->
  Forall (fun line => (N.of_nat (String.length line) <= field_limit)%N) lines ->
  reader_rows parse_reset lines = Py.Ok (Plain.record_of_line <$> lines).
Proof.
  induction 1 as [|line lines Hline Hlines IH]; [done|].
  intros [Hq Hqs]%Forall_cons [Hl Hls]%Forall_cons.
  destruct (parse_line_plain line Hline Hq Hl) as (self' & Hparse & Hst & Hfields).
  cbn [reader_rows]. rewrite Hparse. simpl. rewrite Hst. simpl.
  rewrite (IH Hqs Hls). simpl. by rewrite Hfields.
Qed.

Lemma translate_newlines_no_quote after_cr s :
  Plain.no_quote s = true ->
  Plain.no_quote (Py.translate_newlines_from after_cr s) = true.
Proof.
  revert after_cr. induction s as [|c s IH]; intros after_cr; [done|].
  cbn [Plain.no_quote Py.translate_newlines_from].
  intros [Hc Hs]%andb_true_iff.
  destruct (Ascii.eqb c Py.CR); [simpl; by apply IH|].
  destruct (Ascii.eqb c Py.LF && after_cr); [by apply IH|].
  cbn [Plain.no_quote]. rewrite Hc. by apply IH.
Qed.

Lemma iter_lines_no_quote s :
  Plain.no_quote s = true ->
  Forall (fun line => Plain.no_quote line = true) (Py.iter_lines s).
Proof.
  induction s as [|c s IH]; [constructor|].
  cbn [Plain.no_quote Py.iter_lines]. intros [Hc Hs]%andb_true_iff.
  specialize (IH Hs). destruct (Ascii.eqb c Py.LF).
  - by constructor.
  - destruct (Py.iter_lines s) as [|line lines].
    + constructor; [|constructor]. simpl. by rewrite Hc.
    + inversion IH; subst. constructor; [|done]. simpl. by rewrite Hc.
Qed.

(** The parser on a file without quotes: one record for each line. *)
Lemma DictReader_plain content :
  Plain.no_quote content = true ->
  Forall (fun line => (N.of_nat (String.length line) <= field_limit)%N)
         (Py.readlines content) ->
  DictReader (Py.readlines content) = Py.Ok (Plain.rows_of content).
Proof.
  intros Hquote Hlen. unfold DictReader, reader, Plain.rows_of.
  rewrite reader_rows_plain; [|apply readlines_ok| |exact Hlen].
  - simpl. by destruct (Plain.record_of_line <$> Py.readlines content).
  - by apply iter_lines_no_quote, translate_newlines_no_quote.
Qed.

End PlainFiles.

Section PlainConversion.
Import DataProcessor.

(** X4. A [.csv] file that holds no double quote and no line longer than
    the field size limit is always converted, and line by line: the
    first line gives the column names, every later line that is not
    empty gives one row, its values the pieces between the commas; a
    carriage return, a line feed or both end a line. *)
Theorem process_csv_plain input_file output_file w content :
  files w !! PathLib.str (PathLib.parse input_file) = Some content ->
  PathLib.suffix (PathLib.parse input_file) = ".csv" ->
  Plain.no_quote content = true ->
  Forall (fun line => (N.of_nat (String.length line) <= Csv.field_limit)%N)
         (Py.readlines content) ->
  exists w',
    process_csv input_file output_file w
    = (Py.Ok {| data := Plain.rows_of content;
                count := length (Plain.rows_of content);
                source := PathLib.str (PathLib.parse input_file) |}, w').
Proof.
  intros Hfile Hsuf Hquote Hlen.
  rewrite (process_csv_read _ _ _ _ Hfile Hsuf).
  rewrite (DictReader_plain content Hquote Hlen). eauto.
Qed.

Lemma process_csv_plain_witness :
  exists w',
    process_csv "t.csv" None (Samples.world_with "t.csv" Samples.csv_ragged)
    = (Py.Ok {| data := [ [(Some "a", Csv.Str "1"); (Some "b", Csv.NoneVal)];
                          [(Some "a", Csv.Str "3"); (Some "b", Csv.Str "4");
                           (None, Csv.Rest ["5"; "6"])] ];
                count := 2;
                source := "t.csv" |}, w').
Proof.
  apply (process_csv_plain "t.csv" None
           (Samples.world_with "t.csv" Samples.csv_ragged) Samples.csv_ragged).
  - vm_compute. reflexivity.
  - vm_compute. reflexivity.
  - vm_compute. reflexivity.
  - vm_compute. repeat constructor; discriminate.
Defined.

End PlainConversion.

(** ** Rows under a header of distinct names *)

Section DictOrder.
Context {K V : Type} `{EqDecision K}.
Implicit Types (k : K) (v : V) (d : list (K * V)).

Lemma dict_set_fresh k v d :
  k ∉ d.*1 -> Py.dict_set k v d = (d ++ [(k, v)])%list.
Proof.
  induction d as [|[k' v'] d IH]; simpl; [done|].
  intros Hk. apply not_elem_of_cons in Hk as [Hne Hk].
  rewrite decide_False by done. by rewrite IH.
Qed.

Lemma dict_fill_fresh pairs d :
  NoDup pairs.*1 ->
  (forall k, k ∈ pairs.*1 -> k ∉ d.*1) ->
  foldl (fun d kv => Py.dict_set (fst kv) (snd kv) d) d pairs = (d ++ pairs)%list.
Proof.
  revert d. induction pairs as [|[k v] pairs IH]; intros d Hnodup Hfresh; simpl.
  - by rewrite app_nil_r.
  - apply NoDup_cons in Hnodup as [Hk Hnodup].
    rewrite dict_set_fresh by (apply Hfresh; simpl; left).
    rewrite IH; [by rewrite <- app_assoc|done|].
    intros k' Hk'. rewrite fmap_app. simpl.
    apply not_elem_of_app. split.
    + apply Hfresh. simpl. by right.
    + intros ->%list_elem_of_singleton. done.
Qed.

End DictOrder.

Section AlignedRows.

Lemma zip_keys {A B} (l : list A) (k : list B) : (zip l k).*1 = take (length k) l.
Proof.
  revert k. induction l as [|a l IH]; intros [|b k]; simpl; [done..|].
  by rewrite IH.
Qed.

Lemma DictReader_row_aligned fieldnames row :
  NoDup fieldnames ->
  Csv.DictReader_row fieldnames row = Facts.aligned_row fieldnames row.
Proof.
  intros Hnodup. unfold Csv.DictReader_row, Facts.aligned_row, Py.dict_of.
  assert (NoDup (Some <$> fieldnames)) as Hsome by (by apply (NoDup_fmap_2 Some)).
  assert ((zip (Some <$> fieldnames) (Csv.Str <$> row)).*1
          = Some <$> take (length row) fieldnames) as Hkeys.
  { by rewrite zip_keys, length_fmap, fmap_take. }
  rewrite dict_fill_fresh; simpl.
  2: { rewrite Hkeys. apply (NoDup_fmap_2 Some).
       eapply sublist_NoDup; [done|apply sublist_take]. }
  2: { intros k _. apply not_elem_of_nil. }
  destruct (length fieldnames <? length row)%nat eqn:Hlong.
  - apply Nat.ltb_lt in Hlong. rewrite (drop_ge fieldnames) by lia. simpl.
    apply dict_set_fresh. rewrite Hkeys.
    intros (x & Hx & _)%list_elem_of_fmap. discriminate.
  - apply Nat.ltb_ge in Hlong. rewrite app_nil_r.
    destruct (length row <? length fieldnames)%nat eqn:Hshort.
    + trans (foldl (fun d kv => Py.dict_set (fst kv) (snd kv) d)
                   (zip (Some <$> fieldnames) (Csv.Str <$> row))
                   ((fun key => (Some key, Csv.NoneVal))
                      <$> drop (length row) fieldnames));
        [by rewrite foldl_fmap|].
      apply dict_fill_fresh.
      * rewrite <- list_fmap_compose. apply (NoDup_fmap_2 Some).
        eapply sublist_NoDup; [done|apply sublist_drop].
      * intros k. rewrite <- list_fmap_compose, Hkeys.
        intros (x & -> & Hx)%list_elem_of_fmap (y & [= <-] & Hy)%list_elem_of_fmap.
        rewrite <- (take_drop (length row) fieldnames) in Hnodup.
        apply NoDup_app in Hnodup as (_ & Hdisj & _). by apply (Hdisj x).
    + apply Nat.ltb_ge in Hshort. rewrite (drop_ge fieldnames) by lia. simpl.
      by rewrite app_nil_r.
Qed.

End AlignedRows.

Section OrderedRows.
Import DataProcessor.

(** X5. When the names in the header are distinct, every row lists the
    columns in the order of the header: each column the record reaches
    with its value, then the columns it does not reach with [None], and
    last the key [None] with the values beyond the header, if any. *)
Theorem process_csv_rows_follow_header
    input_file output_file w result w' content fieldnames records :
  files w !! PathLib.str (PathLib.parse input_file) = Some content ->
  Csv.reader (Py.readlines content) = Py.Ok (fieldnames :: records) ->
  NoDup fieldnames ->
  process_csv input_file output_file w = (Py.Ok result, w') ->
  data result
  = Facts.aligned_row fieldnames <$> filter (fun row => row ≠ []) records.
Proof.
  intros Hfile Hrows Hnodup Hrun.
  destruct (process_csv_ok_inv _ _ _ _ _ Hrun) as (content' & Hfile' & _ & Hdata & _).
  rewrite Hfile in Hfile'. injection Hfile' as <-.
  unfold Csv.DictReader in Hdata. rewrite Hrows in Hdata. simpl in Hdata.
  injection Hdata as <-.
  apply list_fmap_ext. intros _ record _. by apply DictReader_row_aligned.
Qed.

Lemma process_csv_rows_follow_header_witness :
  exists result w',
    process_csv "t.csv" None (Samples.world_with "t.csv" Samples.csv_ragged)
    = (Py.Ok result, w')
    /\ data result
       = [ [(Some "a", Csv.Str "1"); (Some "b", Csv.NoneVal)];
           [(Some "a", Csv.Str "3"); (Some "b", Csv.Str "4");
            (None, Csv.Rest ["5"; "6"])] ].
Proof.
  destruct (process_csv "t.csv" None (Samples.world_with "t.csv" Samples.csv_ragged))
    as [[result|e] w'] eqn:Hrun; [|vm_compute in Hrun; discriminate].
  exists result, w'. split; [reflexivity|].
  rewrite (process_csv_rows_follow_header "t.csv" None
             (Samples.world_with "t.csv" Samples.csv_ragged) result w'
             Samples.csv_ragged ["a"; "b"] [["1"]; ["3"; "4"; "5"; "6"]]
             ltac:(vm_compute; reflexivity) ltac:(vm_compute; reflexivity)
             ltac:(by apply (bool_decide_unpack _)) Hrun).
  vm_compute. reflexivity.
Defined.

End OrderedRows.

(** ** Rows under a header with repeated names *)

Section DictLookup.
Context {K V : Type} `{EqDecision K}.
Implicit Types (k : K) (v : V) (d : list (K * V)).

Lemma dict_get_fill_other pairs d k :
  k ∉ pairs.*1 ->
  Py.dict_get k (foldl (fun d kv => Py.dict_set (fst kv) (snd kv) d) d pairs)
  = Py.dict_get k d.
Proof.
  revert d. induction pairs as [|[k0 v0] pairs IH]; intros d Hk; simpl; [done|].
  simpl in Hk. apply not_elem_of_cons in Hk as [Hne Hk].
  rewrite IH by done. by apply dict_get_set_ne.
Qed.

(** The last pair with a key gives the value of the key. *)
Lemma dict_get_fill_last pairs d j k v :
  pairs !! j = Some (k, v) ->
  (forall j' v', j < j' -> pairs !! j' ≠ Some (k, v')) ->
  Py.dict_get k (foldl (fun d kv => Py.dict_set (fst kv) (snd kv) d) d pairs)
  = Some v.
Proof.
  revert d j. induction pairs as [|[k0 v0] pairs IH]; intros d j Hj Hlast; [done|].
  destruct j as [|j]; simpl in *.
  - injection Hj as -> ->. rewrite dict_get_fill_other.
    + apply dict_get_set_eq.
    + intros ((k', v') & Hk' & (j' & Hj')%list_elem_of_lookup)%list_elem_of_fmap.
      simpl in Hk'. subst k'. apply (Hlast (S j') v'); [lia|done].
  - apply (IH _ j); [done|].
    intros j' v' Hlt. apply (Hlast (S j') v'). lia.
Qed.

(** Setting a key adds that key and no other. *)
Lemma dict_set_keys k v d x :
  x ∈ (Py.dict_set k v d).*1 <-> x = k \/ x ∈ d.*1.
Proof.
  induction d as [|[k' v'] d IH]; simpl.
  - rewrite list_elem_of_singleton. split; [auto|]. intros [?|?%elem_of_nil]; done.
  - destruct (decide (k' = k)) as [->|Hne]; simpl.
    + rewrite elem_of_cons. tauto.
    + rewrite !elem_of_cons, IH. tauto.
Qed.

(** A key is never listed twice: setting a key keeps the keys distinct. *)
Lemma dict_set_NoDup k v d : NoDup d.*1 -> NoDup (Py.dict_set k v d).*1.
Proof.
  induction d as [|[k' v'] d IH]; simpl.
  - intros _. apply NoDup_singleton.
  - intros [Hnotin Hnodup]%NoDup_cons.
    destruct (decide (k' = k)) as [->|Hne]; simpl.
    + by apply NoDup_cons.
    + apply NoDup_cons. split; [|by apply IH].
      rewrite dict_set_keys. intros [?|?]; done.
Qed.

(** Where no key is listed twice, the pair of a key holds the value
    the key is looked up to. *)
Lemma dict_get_elem k v d c :
  NoDup d.*1 -> Py.dict_get k d = Some v -> (k, c) ∈ d -> c = v.
Proof.
  induction d as [|[k' v'] d IH]; simpl; [by intros _ _ ?%elem_of_nil|].
  intros [Hnotin Hnodup]%NoDup_cons Hget [Heq|Hin]%elem_of_cons.
  - injection Heq as <- <-. rewrite decide_True in Hget by done. congruence.
  - destruct (decide (k' = k)) as [->|Hne]; [|by apply IH].
    exfalso. apply Hnotin. apply list_elem_of_fmap. by exists (k, c).
Qed.

Lemma dict_fill_NoDup {A} (fk : A -> K) (fv : A -> V) (l : list A) d :
  NoDup d.*1 ->
  NoDup (foldl (fun d x => Py.dict_set (fk x) (fv x) d) d l).*1.
Proof.
  revert d. induction l as [|x l IH]; intros d Hd; simpl; [done|].
  apply IH. by apply dict_set_NoDup.
Qed.

End DictLookup.

Section RepeatedNames.
Import DataProcessor.

(** No row lists a key twice, whatever the header. *)
Lemma DictReader_row_NoDup fieldnames row :
  NoDup (Csv.DictReader_row fieldnames row).*1.
Proof.
  assert (NoDup (Py.dict_of (zip (Some <$> fieldnames) (Csv.Str <$> row))).*1)
    as Hzip.
  { unfold Py.dict_of. apply (dict_fill_NoDup fst snd). apply NoDup_nil_2. }
  unfold Csv.DictReader_row.
  destruct (length fieldnames <? length row)%nat; [by apply dict_set_NoDup|].
  destruct (length row <? length fieldnames)%nat; [|exact Hzip].
  by apply (dict_fill_NoDup Some (fun _ => Csv.NoneVal)).
Qed.

Lemma DictReader_row_last_wins fieldnames row j key value :
  fieldnames !! j = Some key ->
  row !! j = Some value ->
  (forall j', j < j' -> fieldnames !! j' ≠ Some key) ->
  Py.dict_get (Some key) (Csv.DictReader_row fieldnames row)
  = Some (Csv.Str value).
Proof.
  intros Hkey Hvalue Hlast.
  assert (j < length row) as Hj by (by eapply lookup_lt_Some).
  assert (Py.dict_get (Some key)
            (Py.dict_of (zip (Some <$> fieldnames) (Csv.Str <$> row)))
          = Some (Csv.Str value)) as Hzip.
  { apply (dict_get_fill_last _ _ j).
    - apply lookup_zip_with_Some. exists (Some key), (Csv.Str value).
      rewrite !list_lookup_fmap, Hkey, Hvalue. done.
    - intros j' v' Hlt (x & y & [= <- <-] & Hx & _)%lookup_zip_with_Some.
      rewrite list_lookup_fmap in Hx. apply (Hlast j' Hlt).
      destruct (fieldnames !! j'); simpl in Hx; congruence. }
  unfold Csv.DictReader_row.
  destruct (length fieldnames <? length row)%nat.
  - rewrite dict_get_set_ne by done. exact Hzip.
  - destruct (length row <? length fieldnames)%nat; [|exact Hzip].
    trans (Py.dict_get (Some key)
             (foldl (fun d kv => Py.dict_set (fst kv) (snd kv) d)
                    (Py.dict_of (zip (Some <$> fieldnames) (Csv.Str <$> row)))
                    ((fun key => (Some key, Csv.NoneVal))
                       <$> drop (length row) fieldnames)));
      [by rewrite foldl_fmap|].
    rewrite dict_get_fill_other; [exact Hzip|].
    rewrite <- list_fmap_compose.
    intros (x & [= <-] & (i & Hi)%list_elem_of_lookup)%list_elem_of_fmap.
    rewrite lookup_drop in Hi. apply (Hlast (length row + i)); [lia|done].
Qed.

(** X6. A column name may stand more than once in the header: no row
    lists a key twice, so the name is one key of the row, and its value
    is the value under the last column of that name, provided the record
    reaches that column; the row holds no other value for the name, so
    the values under its earlier columns are lost. *)
Theorem process_csv_last_column_wins
    input_file output_file w result w' content fieldnames records
    i record j key value :
  files w !! PathLib.str (PathLib.parse input_file) = Some content ->
  Csv.reader (Py.readlines content) = Py.Ok (fieldnames :: records) ->
  process_csv input_file output_file w = (Py.Ok result, w') ->
  filter (fun row => row ≠ []) records !! i = Some record ->
  fieldnames !! j = Some key ->
  record !! j = Some value ->
  (forall j', j < j' -> fieldnames !! j' ≠ Some key) ->
  exists row,
    data result !! i = Some row
    /\ NoDup row.*1
    /\ Py.dict_get (Some key) row = Some (Csv.Str value)
    /\ forall c, (Some key, c) ∈ row -> c = Csv.Str value.
Proof.
  intros Hfile Hrows Hrun Hrecord Hkey Hvalue Hlast.
  destruct (process_csv_ok_inv _ _ _ _ _ Hrun) as (content' & Hfile' & _ & Hdata & _).
  rewrite Hfile in Hfile'. injection Hfile' as <-.
  unfold Csv.DictReader in Hdata. rewrite Hrows in Hdata. simpl in Hdata.
  injection Hdata as <-.
  pose proof (DictReader_row_last_wins _ _ j _ _ Hkey Hvalue Hlast) as Hget.
  exists (Csv.DictReader_row fieldnames record). split; [|split; [|split]].
  - by rewrite list_lookup_fmap, Hrecord.
  - apply DictReader_row_NoDup.
  - exact Hget.
  - intros c. apply dict_get_elem; [apply DictReader_row_NoDup|exact Hget].
Qed.

Lemma process_csv_last_column_wins_witness :
  exists result w',
    process_csv "t.csv" None (Samples.world_with "t.csv" Cases.csv_repeated)
    = (Py.Ok result, w')
    /\ exists row,
         data result !! 0 = Some row
         /\ NoDup row.*1
         /\ Py.dict_get (Some "a") row = Some (Csv.Str "2")
         /\ forall c, (Some "a", c) ∈ row -> c = Csv.Str "2".
Proof.
  destruct (process_csv "t.csv" None (Samples.world_with "t.csv" Cases.csv_repeated))
    as [[result|e] w'] eqn:Hrun; [|vm_compute in Hrun; discriminate].
  exists result, w'. split; [reflexivity|].
  apply (process_csv_last_column_wins "t.csv" None
           (Samples.world_with "t.csv" Cases.csv_repeated) result w'
           Cases.csv_repeated ["a"; "a"] [["1"; "2"]] 0 ["1"; "2"] 1 "a" "2");
    try (vm_compute; reflexivity); [exact Hrun|].
  intros [|[|j']] Hlt; [lia..|]. simpl. discriminate.
Defined.

End RepeatedNames.

(** ** The converter run as a script *)

Section Script.
Import DataProcessor DataProcessorCli.

(** X7. The script exits with 2 exactly when it is given no input file;
    it then prints the usage line and reads, writes and logs nothing. *)
Theorem script_usage argv w :
  (exit_code (fst (script argv w)) = 2%Z <-> length argv < 2)
  /\ (length argv < 2 ->
      script argv w
      = ({| out := Py.print "Usage: python data_processor.py input.csv [output.json]";
            exit_code := 2 |}, w)).
Proof.
  destruct argv as [|prog [|input_file rest]]; simpl.
  - split; [split; [lia|done]|done].
  - split; [split; [lia|done]|done].
  - split; [|lia]. split; [|lia].
    destruct (process_csv input_file (head rest) w) as [[result|e] w']; simpl;
      discriminate.
Qed.

(** X8. The script exits with 0 exactly when it is given an input file
    and the conversion of it returns, the second argument, if there is
    one, being the output path and the arguments after it not looked at;
    it then prints the number of rows read from the input file and
    leaves the world as the conversion left it. *)
Theorem script_success argv w :
  (exit_code (fst (script argv w)) = 0%Z
   <-> exists prog input_file rest result w',
         argv = prog :: input_file :: rest
         /\ process_csv input_file (head rest) w = (Py.Ok result, w'))
  /\ (forall prog input_file rest result w',
        argv = prog :: input_file :: rest ->
        process_csv input_file (head rest) w = (Py.Ok result, w') ->
        exists content,
          files w !! PathLib.str (PathLib.parse input_file) = Some content
          /\ Csv.DictReader (Py.readlines content) = Py.Ok (data result)
          /\ script argv w
             = ({| out := Py.print ("Processed "
                                    +:+ Py.str_of_int (Z.of_nat (length (data result)))
                                    +:+ " records");
                   exit_code := 0 |}, w')).
Proof.
  split; [split|].
  - destruct argv as [|prog [|input_file rest]]; simpl; [discriminate..|].
    destruct (process_csv input_file (head rest) w) as [[result|e] w'] eqn:Hrun;
      simpl; [intros _|discriminate].
    by exists prog, input_file, rest, result, w'.
  - intros (prog & input_file & rest & result & w' & -> & Hrun).
    simpl. by rewrite Hrun.
  - intros prog input_file rest result w' -> Hrun.
    destruct (process_csv_ok_inv _ _ _ _ _ Hrun)
      as (content & Hfile & _ & Hdata & Hcount & _).
    exists content. split; [done|]. split; [done|].
    simpl. by rewrite Hrun, Hcount.
Qed.

(** X9. When the script does not exit with 0, no file has been changed;
    it exits with 1 only when the conversion of its input file raised,
    and it has then printed nothing and logged, after what the
    conversion logged, the failure with the message of the exception
    that was raised. *)
Theorem script_failure argv w :
  exit_code (fst (script argv w)) ≠ 0%Z ->
  files (snd (script argv w)) = files w
  /\ (exit_code (fst (script argv w)) = 1%Z ->
      exists prog input_file rest e w1,
        argv = prog :: input_file :: rest
        /\ process_csv input_file (head rest) w = (Py.Raise e, w1)
        /\ script argv w
           = ({| out := ""; exit_code := 1 |},
              {| files := files w1;
                 dirs := dirs w1;
                 log := log w1
                        ++ ["Processing failed: " +:+ GitStatsCli.exn_message e] |})
        /\ last (log (snd (script argv w)))
           = Some ("Processing failed: " +:+ GitStatsCli.exn_message e)).
Proof.
  destruct argv as [|prog [|input_file rest]]; simpl;
    [split; [done|discriminate]..|].
  destruct (process_csv input_file (head rest) w) as [[result|e] w'] eqn:Hrun;
    simpl; [done|]. intros _. split.
  - by apply (process_csv_raise_keeps_files _ _ _ _ _ Hrun).
  - intros _. exists prog, input_file, rest, e, w'.
    split; [done|]. split; [done|]. split; [done|]. by rewrite last_snoc.
Qed.

Lemma script_failure_witness :
  let w := Samples.world_with "notes.txt" Samples.csv_two_rows in
  let run := script ["data_processor.py"; "notes.txt"; "out.json"] w in
  exit_code (fst run) = 1%Z
  /\ files (snd run) = files w
  /\ run = ({| out := ""; exit_code := 1 |},
            {| files := files w;
               dirs := dirs w;
               log := ["Processing failed: Input file must be a CSV file"] |}).
Proof.
  intros w run.
  assert (exit_code (fst run) = 1%Z) as Hcode by (vm_compute; reflexivity).
  destruct (script_failure ["data_processor.py"; "notes.txt"; "out.json"] w)
    as (Hfiles & Hrest); [vm_compute; discriminate|].
  destruct (Hrest Hcode) as (prog & input_file & rest & e & w1 & Hargv & Hrun & Hscript & _).
  injection Hargv as <- <- <-.
  split; [exact Hcode|]. split; [exact Hfiles|].
  assert (process_csv "notes.txt" (head ["out.json"]) w
          = (Py.Raise (Py.ValueError "Input file must be a CSV file"), w)) as Hcalc
    by (vm_compute; reflexivity).
  rewrite Hcalc in Hrun. injection Hrun as <- <-.
  exact Hscript.
Defined.

End Script.

(** ** Reading a number back *)

Section Numbers.

Lemma app_assoc_str s t u : (s +:+ t) +:+ u = s +:+ (t +:+ u).
Proof.
  induction s as [|c s IH]; [done|]. rewrite !app_cons. by f_equal.
Qed.

Lemma pretty_N_go_app x s : pretty_N_go x s = pretty_N_go x "" +:+ s.
Proof.
  revert s. induction (N.lt_wf_0 x) as [x _ IH]; intros s.
  destruct (decide (x = 0)%N) as [->|Hx]; [done|].
  assert (x `div` 10 < x)%N as Hlt by (apply N.div_lt; lia).
  rewrite !(pretty_N_go_step x) by lia.
  rewrite (IH _ Hlt (String _ s)), (IH _ Hlt (String _ "")).
  by rewrite app_assoc_str.
Qed.

Lemma digit_value_pretty_N_char m :
  (m < 10)%N -> PyInt.digit_value (pretty_N_char m) = Some (Z.of_N m).
Proof.
  intros Hm.
  assert (m = 0 \/ m = 1 \/ m = 2 \/ m = 3 \/ m = 4 \/ m = 5 \/ m = 6
          \/ m = 7 \/ m = 8 \/ m = 9)%N as Hcases by lia.
  repeat (destruct Hcases as [->|Hcases]; [reflexivity|]). by subst.
Qed.

Lemma all_digits_app s t :
  Facts.all_digits (s +:+ t) = Facts.all_digits s && Facts.all_digits t.
Proof.
  induction s as [|c s IH]; [done|]. rewrite app_cons. simpl.
  by rewrite IH, andb_assoc.
Qed.

Lemma digits_val_app acc s t :
  Facts.digits_val acc (s +:+ t) = Facts.digits_val (Facts.digits_val acc s) t.
Proof.
  revert acc. induction s as [|c s IH]; intros acc; [done|].
  rewrite app_cons. simpl. by rewrite IH.
Qed.

(** The digits [pretty] writes for [x] are digits, and their value is
    [x]. *)
Lemma pretty_N_go_digits x :
  Facts.all_digits (pretty_N_go x "") = true
  /\ Facts.digits_val 0 (pretty_N_go x "") = Z.of_N x.
Proof.
  induction (N.lt_wf_0 x) as [x _ IH].
  destruct (decide (x = 0)%N) as [->|Hx]; [done|].
  rewrite pretty_N_go_step, pretty_N_go_app by lia.
  destruct (IH (x `div` 10)%N) as [IH1 IH2]; [apply N.div_lt; lia|].
  assert (x `mod` 10 < 10)%N as Hmod by (apply N.mod_lt; lia).
  rewrite all_digits_app, digits_val_app, IH1, IH2. simpl.
  rewrite (digit_value_pretty_N_char _ Hmod). simpl. split; [done|].
  rewrite (N.div_mod x 10) at 3 by lia. lia.
Qed.

Lemma scan_digits s acc digits t :
  Facts.all_digits s = true ->
  PyInt.scan acc digits false (s +:+ t)
  = PyInt.scan (Facts.digits_val acc s) (digits + String.length s) false t.
Proof.
  revert acc digits. induction s as [|c s IH]; intros acc digits.
  - intros _. simpl. by rewrite Nat.add_0_r.
  - simpl. intros [Hc Hs]%andb_true_iff. apply bool_decide_eq_true in Hc as [d Hd].
    rewrite Hd.
    assert (Ascii.eqb c "_" = false) as ->.
    { destruct (Ascii.eqb_spec c "_") as [->|]; [discriminate|done]. }
    simpl. rewrite IH by done. f_equal. lia.
Qed.

Lemma parse_unsigned_digits s :
  s ≠ "" ->
  Facts.all_digits s = true ->
  String.length s <= PyInt.max_str_digits ->
  PyInt.parse_unsigned s = Some (Facts.digits_val 0 s).
Proof.
  intros Hne Hdigits Hlen. unfold PyInt.parse_unsigned.
  destruct s as [|c s]; [done|].
  assert (Ascii.eqb c "_" = false) as ->.
  { simpl in Hdigits. apply andb_true_iff in Hdigits as [Hc _].
    apply bool_decide_eq_true in Hc as [d Hd].
    destruct (Ascii.eqb_spec c "_") as [->|]; [discriminate|done]. }
  rewrite <- (app_empty_r (String c s)) at 1.
  rewrite scan_digits by done. cbn [PyInt.scan]. simpl "+".
  cbn [String.length] in Hlen.
  by rewrite (proj2 (Nat.ltb_ge _ _)) by lia.
Qed.

Lemma pretty_N_go_not_empty x : (0 < x)%N -> pretty_N_go x "" ≠ "".
Proof.
  intros Hx. rewrite pretty_N_go_step, pretty_N_go_app by done.
  by destruct (pretty_N_go (x `div` 10) "").
Qed.

Lemma str_of_int_pos p : Py.str_of_int (Z.pos p) = pretty_N_go (N.pos p) "".
Proof. reflexivity. Qed.

Lemma parse_unsigned_str_of_int n :
  (0 <= n)%Z ->
  String.length (Py.str_of_int n) <= PyInt.max_str_digits ->
  PyInt.parse_unsigned (Py.str_of_int n) = Some n.
Proof.
  intros Hn Hlen. destruct n as [|p|p]; [done| |lia].
  rewrite str_of_int_pos in *.
  destruct (pretty_N_go_digits (N.pos p)) as [Hdigits Hval].
  rewrite parse_unsigned_digits; [by rewrite Hval| |done..].
  by apply pretty_N_go_not_empty.
Qed.

(** The first character of the decimal form of a number that is not
    negative is a digit. *)
Lemma str_of_int_head n :
  (0 <= n)%Z ->
  exists c s, Py.str_of_int n = String c s
              /\ Facts.all_digits (String c s) = true.
Proof.
  intros Hn. destruct n as [|p|p]; [by exists "0"%char, ""| |lia].
  rewrite str_of_int_pos.
  destruct (pretty_N_go_digits (N.pos p)) as [Hdigits _].
  pose proof (pretty_N_go_not_empty (N.pos p)) as Hne.
  destruct (pretty_N_go (N.pos p) "") as [|c s]; [by destruct Hne|eauto].
Qed.

(** [int(str(n))] is [n], for a number of at most 4300 digits. *)
Lemma int_of_str_str_of_int n :
  String.length (Py.str_of_int (Z.abs n)) <= PyInt.max_str_digits ->
  PyInt.int_of_str (Py.str_of_int n) = Some n.
Proof.
  intros Hlen.
  assert (forall m, (0 <= m)%Z ->
            String.length (Py.str_of_int m) <= PyInt.max_str_digits ->
            PyInt.int_of_str (Py.str_of_int m) = Some m) as Hpos.
  { intros m Hm Hl. destruct (str_of_int_head m Hm) as (c & s & Hs & Hdigits).
    pose proof (parse_unsigned_str_of_int m Hm Hl) as Hparse.
    rewrite Hs in *. unfold PyInt.int_of_str.
    simpl in Hdigits. apply andb_true_iff in Hdigits as [Hc _].
    apply bool_decide_eq_true in Hc as [d Hd].
    destruct (Ascii.eqb_spec c "+") as [->|Hplus]; [discriminate|].
    destruct (Ascii.eqb_spec c "-") as [->|Hminus]; [discriminate|].
    destruct c as [[] [] [] [] [] [] [] []]; try done. }
  destruct n as [|p|p]; [done|by apply Hpos|].
  change (Py.str_of_int (Z.neg p)) with (String "-" (Py.str_of_int (Z.pos p))).
  unfold PyInt.int_of_str.
  rewrite parse_unsigned_str_of_int; [done|lia|exact Hlen].
Qed.

Lemma digit_not_space c :
  is_Some (PyInt.digit_value c) -> Py.isspace c = false.
Proof.
  intros [d Hd]. destruct c as [[] [] [] [] [] [] [] []]; done.
Qed.

Lemma all_digits_no_space s :
  Facts.all_digits s = true -> Shape.no_space s = true.
Proof.
  induction s as [|c s IH]; [done|]. simpl.
  intros [Hc Hs]%andb_true_iff. apply bool_decide_eq_true in Hc.
  by rewrite (digit_not_space c Hc), IH.
Qed.

(** The decimal form of a number is an address in the sense of
    [Shape.address]: not empty and without whitespace. *)
Lemma str_of_int_address n : Shape.address (Py.str_of_int n).
Proof.
  assert (forall m, (0 <= m)%Z -> Shape.address (Py.str_of_int m)) as Hpos.
  { intros m Hm. destruct (str_of_int_head m Hm) as (c & s & -> & Hdigits).
    split; [done|]. by apply all_digits_no_space. }
  destruct n as [|p|p]; [by apply Hpos..|].
  change (Py.str_of_int (Z.neg p)) with (String "-" (Py.str_of_int (Z.pos p))).
  destruct (Hpos (Z.pos p)) as [_ Hspace]; [lia|]. split; [done|].
  cbn [Shape.no_space]. by rewrite Hspace.
Qed.

Lemma strip_line e : Shape.address e -> Py.strip (e +:+ Py.nl) = e.
Proof.
  intros He. unfold Py.strip. rewrite rstrip_app by apply He.
  change (Py.rstrip Py.nl) with "".
  rewrite (lstrip_address e "" He). apply app_empty_r.
Qed.

End Numbers.

(** ** The queries of the statistics reporter *)

Section Queries.
Import GitStats GitStatsCli.

Lemma split_no_lf e t :
  Facts.no_lf e = true ->
  Py.split Py.LF (e +:+ t) = Facts.glue e (Py.split Py.LF t).
Proof.
  induction e as [|c e IH]; cbn [Facts.no_lf].
  - intros _. change ("" +:+ t) with t. symmetry. apply glue_empty.
  - intros [Hc He]%andb_true_iff. apply negb_true_iff in Hc.
    rewrite app_cons. cbn [Py.split]. rewrite Hc, (IH He).
    pose proof (split_not_nil Py.LF t). by destruct (Py.split Py.LF t).
Qed.

(** A listing of lines, split at the line feeds: the lines, and the
    empty piece after the last line feed. *)
Lemma split_listing lines :
  Forall (fun line => Facts.no_lf line = true) lines ->
  Py.split Py.LF (Spec.log_of lines) = (lines ++ [""])%list.
Proof.
  induction 1 as [|line lines Hline Hlines IH]; [done|].
  cbn [Spec.log_of foldr]. fold (Spec.log_of lines).
  rewrite split_no_lf by done.
  change (Py.nl +:+ Spec.log_of lines) with (String Py.LF (Spec.log_of lines)).
  cbn [Py.split]. rewrite Ascii.eqb_refl, IH. simpl. by rewrite app_empty_r.
Qed.

Lemma filter_not_blank lines :
  Forall (fun line => Spec.blank line = false) lines ->
  filter (fun line => Py.strip line ≠ "") (lines ++ [""])%list = lines.
Proof.
  intros Hlines. rewrite filter_app.
  rewrite (filter_cons_False _ "" []) by (intros Hne; by apply Hne).
  rewrite app_nil_r. induction Hlines as [|line lines Hline Hlines IH]; [done|].
  rewrite filter_cons_True, IH; [done|].
  rewrite strip_empty_iff. congruence.
Qed.

Lemma int_of_line n :
  String.length (Py.str_of_int (Z.abs n)) <= PyInt.max_str_digits ->
  PyInt.int_of_str (Py.strip (Py.str_of_int n +:+ Py.nl)) = Some n.
Proof.
  intros Hlen. rewrite strip_line by apply str_of_int_address.
  by apply int_of_str_str_of_int.
Qed.

(** X10. When [git rev-list --count HEAD] succeeds and prints a number
    of at most 4300 digits on a line, [get_commit_count] returns that
    number. *)
Theorem get_commit_count_reads_count subprocess_run int_error repo_path n :
  subprocess_run ["git"; "-C"; repo_path; "rev-list"; "--count"; "HEAD"]
  = {| returncode := 0; stdout := Py.str_of_int n +:+ Py.nl |} ->
  String.length (Py.str_of_int (Z.abs n)) <= PyInt.max_str_digits ->
  get_commit_count subprocess_run int_error repo_path = Py.Ok n.
Proof.
  intros Hrun Hlen. unfold get_commit_count. rewrite Hrun. simpl.
  by rewrite (int_of_line n Hlen).
Qed.

Lemma get_commit_count_reads_count_witness :
  get_commit_count Cases.git_repo (fun s => s) "/repo" = Py.Ok 5%Z.
Proof.
  apply (get_commit_count_reads_count Cases.git_repo (fun s => s) "/repo" 5).
  - reflexivity.
  - vm_compute. lia.
Defined.

(** X11. What [get_commit_count] raises: [RuntimeError] when [git]
    exits with another code than 0, whatever it printed; [ValueError]
    when it exits with 0 and the output, stripped, is not a decimal
    number, as when nothing is printed. *)
Theorem get_commit_count_raises subprocess_run int_error repo_path :
  let result :=
    subprocess_run ["git"; "-C"; repo_path; "rev-list"; "--count"; "HEAD"] in
  (returncode result ≠ 0%Z ->
   get_commit_count subprocess_run int_error repo_path
   = Py.Raise (Py.RuntimeError "Not a git repository or git is not installed"))
  /\ (returncode result = 0%Z ->
      PyInt.int_of_str (Py.strip (stdout result)) = None ->
      get_commit_count subprocess_run int_error repo_path
      = Py.Raise (Py.ValueError (int_error (Py.strip (stdout result)))))
  /\ (returncode result = 0%Z ->
      Spec.blank (stdout result) = true ->
      get_commit_count subprocess_run int_error repo_path
      = Py.Raise (Py.ValueError (int_error ""))).
Proof.
  intros result. unfold get_commit_count. fold result. repeat split.
  - intros Hrc. by rewrite bool_decide_eq_true_2.
  - intros Hrc Hint. rewrite bool_decide_eq_false_2 by (rewrite Hrc; auto).
    by rewrite Hint.
  - intros Hrc Hblank. rewrite bool_decide_eq_false_2 by (rewrite Hrc; auto).
    apply strip_empty_iff in Hblank. by rewrite Hblank.
Qed.

(** X12. When [git branch -a] succeeds and lists lines that are not
    blank, [get_branch_count] returns the number of the lines; for an
    empty listing it returns 0. *)
Theorem get_branch_count_listing subprocess_run repo_path lines :
  subprocess_run ["git"; "-C"; repo_path; "branch"; "-a"]
  = {| returncode := 0; stdout := Spec.log_of lines |} ->
  Forall (fun line => Facts.no_lf line = true) lines ->
  Forall (fun line => Spec.blank line = false) lines ->
  get_branch_count subprocess_run repo_path = Py.Ok (length lines).
Proof.
  intros Hrun Hlf Hblank. unfold get_branch_count. rewrite Hrun. simpl.
  by rewrite split_listing, filter_not_blank, length_map.
Qed.

Lemma get_branch_count_listing_witness :
  get_branch_count Cases.git_repo "/repo" = Py.Ok 3
  /\ get_branch_count (Samples.git_prints "") "/repo" = Py.Ok 0.
Proof.
  split.
  - apply (get_branch_count_listing Cases.git_repo "/repo"
             ["* main"; "  dev"; "  remotes/origin/main"]);
      [reflexivity|repeat constructor..].
  - apply (get_branch_count_listing (Samples.git_prints "") "/repo" []);
      [reflexivity|constructor..].
Defined.

Lemma size_list_to_set_le (l : list string) :
  size (list_to_set l : gset string) <= length l.
Proof.
  induction l as [|x l IH].
  - done.
  - rewrite list_to_set_cons, size_union_alt, size_singleton. simpl.
    assert (size (list_to_set l ∖ {[x]} : gset string)
            <= size (list_to_set l : gset string)); [|lia].
    apply subseteq_size. by intros y [Hy _]%elem_of_difference.
Qed.

(** X13. [get_author_count] never returns 0: when it returns, the
    number is at least 1 and at most the number of pieces the stripped
    output splits into at the line feeds. *)
Theorem get_author_count_bounds subprocess_run repo_path n :
  get_author_count subprocess_run repo_path = Py.Ok n ->
  1 <= n
  <= length (Py.split Py.LF
               (Py.strip (stdout (subprocess_run
                                    ["git"; "-C"; repo_path; "log"; "--format=%ae"])))).
Proof.
  unfold get_author_count. destruct (bool_decide _); [discriminate|].
  intros [= <-].
  set (pieces := Py.split Py.LF _).
  assert (pieces ≠ []) as Hne by apply split_not_nil.
  split.
  - destruct pieces as [|piece pieces']; [done|].
    assert (size (list_to_set (piece :: pieces') : gset string) ≠ 0); [|lia].
    apply size_non_empty_iff. intros Hempty.
    apply (not_elem_of_empty (C:=gset string) piece).
    rewrite <- Hempty. apply elem_of_list_to_set. left.
  - apply size_list_to_set_le.
Qed.

Lemma get_author_count_bounds_witness :
  get_author_count Cases.git_repo "/repo" = Py.Ok 2 /\ 1 <= 2 <= 3.
Proof.
  split; [reflexivity|].
  apply (get_author_count_bounds Cases.git_repo "/repo" 2). reflexivity.
Defined.

Lemma get_author_count_distinct_emails_witness :
  get_author_count Cases.git_repo "/repo" = Py.Ok 2.
Proof.
  apply (get_author_count_distinct_emails Cases.git_repo "/repo"
           ["a@x.org"; "b@x.org"; "a@x.org"]).
  - discriminate.
  - repeat constructor; discriminate.
  - reflexivity.
Defined.

End Queries.

(** ** The report and [main] *)

Section Report.
Import GitStats GitStatsCli.

(** X14. In JSON format the report is an object on five lines: the
    keys [commits], [authors] and [branches] in this order, each on a
    line of its own behind two spaces, the first two followed by a
    comma. *)
Theorem display_stats_json stats :
  display_stats stats "json"
  = Py.print "{"
    +:+ Py.print ("  " +:+ Json.encode_str "commits" +:+ ": "
                  +:+ Py.str_of_int (commits stats) +:+ ",")
    +:+ Py.print ("  " +:+ Json.encode_str "authors" +:+ ": "
                  +:+ Py.str_of_int (authors stats) +:+ ",")
    +:+ Py.print ("  " +:+ Json.encode_str "branches" +:+ ": "
                  +:+ Py.str_of_int (branches stats))
    +:+ Py.print "}".
Proof.
  unfold display_stats, Json.dumps, stats_json, Py.print. simpl.
  rewrite !app_assoc_str. reflexivity.
Qed.

Variable subprocess_run : list string -> CompletedProcess.
Variable int_error : string -> string.
Variable resolve : PathLib.Path -> PathLib.Path.
Variable path_exists : PathLib.Path -> bool.
Variable print_exc : Py.exn -> string.

Let main := GitStatsCli.main subprocess_run int_error resolve path_exists print_exc.
Let collect := collect_stats subprocess_run int_error.
Let repo (args : Namespace) := resolve (PathLib.parse (path args)).

(** What [main] writes to standard error before it asks [git]. *)
Let analyzing (args : Namespace) : string :=
  if verbose args
  then Py.print ("Analyzing repository: " +:+ PathLib.str (repo args))
  else "".

(** The first query that fails decides the error. *)
Lemma collect_stats_raises repo_path e :
  collect repo_path = Py.Raise e ->
  (exists msg,
     e = Py.RuntimeError msg
     /\ msg ∈ ["Not a git repository or git is not installed";
               "Failed to get author information";
               "Failed to get branch information"])
  \/ (exists text,
        e = Py.ValueError (int_error text)
        /\ get_commit_count subprocess_run int_error repo_path = Py.Raise e).
Proof.
  unfold collect, collect_stats.
  destruct (get_commit_count _ _ _) as [commits|e1] eqn:Hcommits; simpl.
  - destruct (get_author_count _ _) as [authors|e2] eqn:Hauthors; simpl.
    + destruct (get_branch_count _ _) as [branches|e3] eqn:Hbranches; simpl;
        [discriminate|].
      intros [= <-]. left. unfold get_branch_count in Hbranches.
      destruct (bool_decide _); [|discriminate]. injection Hbranches as <-.
      eexists. split; [done|]. do 2 (apply elem_of_cons; right).
      apply elem_of_cons. by left.
    + intros [= <-]. left. unfold get_author_count in Hauthors.
      destruct (bool_decide _); [|discriminate]. injection Hauthors as <-.
      eexists. split; [done|]. apply elem_of_cons; right.
      apply elem_of_cons. by left.
  - intros [= <-]. unfold get_commit_count in Hcommits.
    destruct (bool_decide _).
    + injection Hcommits as <-. left. eexists. split; [done|].
      apply elem_of_cons. by left.
    + destruct (PyInt.int_of_str _); [discriminate|].
      injection Hcommits as <-. right. eauto.
Qed.

(** X15. [main] exits with 0 exactly when the path exists, holds a
    [.git] entry and the three queries return; it then prints the report
    of their results.  In every other case it exits with 1 and prints
    nothing to standard output. *)
Theorem main_exit_code args :
  (exit_code (main args) = 0%Z
   /\ path_exists (repo args) = true
   /\ path_exists (child (repo args) ".git") = true
   /\ exists stats,
        collect (PathLib.str (repo args)) = Py.Ok stats
        /\ out (main args) = display_stats stats (format args)
        /\ err (main args) = analyzing args)
  \/ (exit_code (main args) = 1%Z
      /\ out (main args) = ""
      /\ (path_exists (repo args) = false
          \/ path_exists (child (repo args) ".git") = false
          \/ exists e, collect (PathLib.str (repo args)) = Py.Raise e)).
Proof.
  unfold main, GitStatsCli.main. fold (repo args) collect.
  destruct (path_exists (repo args)) eqn:Hexists; simpl; [|right; auto].
  destruct (path_exists (child (repo args) ".git")) eqn:Hgit; simpl; [|right; auto].
  destruct (collect (PathLib.str (repo args))) as [stats|e] eqn:Hstats.
  - left. simpl. eauto 10.
  - right. destruct e; simpl; eauto 10.
Qed.

(** X16. The path is checked before [git] is asked: a path that does
    not exist, or that holds no [.git] entry, ends the run with exit
    code 1 and a message that quotes the path as it was given, whatever
    [git] would answer. *)
Theorem main_checks_path args :
  (path_exists (repo args) = false ->
   main args
   = {| out := "";
        err := Py.print ("Error: Path '" +:+ path args +:+ "' does not exist");
        exit_code := 1 |})
  /\ (path_exists (repo args) = true ->
      path_exists (child (repo args) ".git") = false ->
      main args
      = {| out := "";
           err := Py.print ("Error: '" +:+ path args +:+ "' is not a git repository");
           exit_code := 1 |}).
Proof.
  unfold main, GitStatsCli.main. fold (repo args). split.
  - by intros ->.
  - by intros -> ->.
Qed.

(** X17. When a query fails, [main] reports the first failure in the
    order commits, authors, branches: a [git] that exits with another
    code than 0 gives the line [Error:] with the message of that query;
    a commit count that is no number gives the line [Unexpected error:],
    followed by the traceback only in verbose mode. *)
Theorem main_reports_first_failure args e :
  path_exists (repo args) = true ->
  path_exists (child (repo args) ".git") = true ->
  collect (PathLib.str (repo args)) = Py.Raise e ->
  (exists msg,
     e = Py.RuntimeError msg
     /\ msg ∈ ["Not a git repository or git is not installed";
               "Failed to get author information";
               "Failed to get branch information"]
     /\ main args
        = {| out := "";
             err := analyzing args +:+ Py.print ("Error: " +:+ msg);
             exit_code := 1 |})
  \/ (exists text,
        e = Py.ValueError (int_error text)
        /\ get_commit_count subprocess_run int_error (PathLib.str (repo args))
           = Py.Raise e
        /\ main args
           = {| out := "";
                err := analyzing args
                       +:+ Py.print ("Unexpected error: " +:+ int_error text)
                       +:+ (if verbose args then print_exc e else "");
                exit_code := 1 |}).
Proof.
  intros Hexists Hgit Hstats.
  unfold main, GitStatsCli.main. fold (repo args) collect.
  rewrite Hexists, Hgit, Hstats. simpl. fold (analyzing args).
  destruct (collect_stats_raises _ _ Hstats) as [(msg & -> & Hmsg)|(text & -> & Hcommit)].
  - left. eauto.
  - right. eauto.
Qed.

(** X18. From the output of [git] to the report: in a repository where
    [git] prints the commit count [n], one author email for each commit
    and one line for each branch, [main] prints the report with [n]
    commits, the number of distinct emails and the number of branch
    lines, and exits with 0. *)
Theorem main_report args n emails lines :
  path_exists (repo args) = true ->
  path_exists (child (repo args) ".git") = true ->
  subprocess_run ["git"; "-C"; PathLib.str (repo args); "rev-list"; "--count"; "HEAD"]
  = {| returncode := 0; stdout := Py.str_of_int n +:+ Py.nl |} ->
  String.length (Py.str_of_int (Z.abs n)) <= PyInt.max_str_digits ->
  subprocess_run ["git"; "-C"; PathLib.str (repo args); "log"; "--format=%ae"]
  = {| returncode := 0; stdout := Spec.log_of emails |} ->
  emails ≠ [] ->
  Forall Shape.address emails ->
  subprocess_run ["git"; "-C"; PathLib.str (repo args); "branch"; "-a"]
  = {| returncode := 0; stdout := Spec.log_of lines |} ->
  Forall (fun line => Facts.no_lf line = true) lines ->
  Forall (fun line => Spec.blank line = false) lines ->
  main args
  = {| out := display_stats
                {| commits := n;
                   authors := Z.of_nat (size (list_to_set emails : gset string));
                   branches := Z.of_nat (length lines) |}
                (format args);
       err := analyzing args;
       exit_code := 0 |}.
Proof.
  intros Hexists Hgit Hcount Hdigits Hlog Hne Hemails Hbranch Hlf Hblank.
  unfold main, GitStatsCli.main. fold (repo args).
  rewrite Hexists, Hgit. simpl.
  unfold collect_stats, get_commit_count, get_author_count, get_branch_count.
  rewrite Hcount, Hlog, Hbranch. simpl.
  rewrite (int_of_line n Hdigits). simpl.
  rewrite strip_split_log_of by done.
  rewrite split_listing, filter_not_blank, length_map by done.
  reflexivity.
Qed.

End Report.

Section ReportRuns.
Import GitStats GitStatsCli.

Lemma get_commit_count_raises_witness :
  get_commit_count Cases.git_fails (fun s => s) "/repo"
  = Py.Raise (Py.RuntimeError "Not a git repository or git is not installed")
  /\ get_commit_count (Samples.git_prints Py.nl) (fun s => s) "/repo"
     = Py.Raise (Py.ValueError "").
Proof.
  split.
  - apply (proj1 (get_commit_count_raises Cases.git_fails (fun s => s) "/repo")).
    discriminate.
  - apply (proj2 (proj2 (get_commit_count_raises
                           (Samples.git_prints Py.nl) (fun s => s) "/repo")));
      reflexivity.
Defined.

Lemma main_checks_path_witness :
  main Cases.git_repo (fun s => s) (fun p => p) (fun _ => false) (fun _ => "")
       Cases.args_text
  = {| out := ""; err := Py.print "Error: Path '/repo' does not exist";
       exit_code := 1 |}.
Proof.
  apply (proj1 (main_checks_path Cases.git_repo (fun s => s) (fun p => p)
                  (fun _ => false) (fun _ => "") Cases.args_text)).
  reflexivity.
Defined.

Lemma main_reports_first_failure_witness :
  main Cases.git_fails (fun s => s) (fun p => p) Cases.repo_exists (fun _ => "")
       Cases.args_text
  = {| out := "";
       err := Py.print "Error: Not a git repository or git is not installed";
       exit_code := 1 |}.
Proof.
  destruct (main_reports_first_failure Cases.git_fails (fun s => s) (fun p => p)
              Cases.repo_exists (fun _ => "") Cases.args_text
              (Py.RuntimeError "Not a git repository or git is not installed")
              ltac:(vm_compute; reflexivity) ltac:(vm_compute; reflexivity)
              ltac:(vm_compute; reflexivity))
    as [(msg & Hmsg & _ & Hmain)|(text & Htext & _)]; [|discriminate].
  injection Hmsg as <-. exact Hmain.
Defined.

Lemma main_report_witness :
  main Cases.git_repo (fun s => s) (fun p => p) Cases.repo_exists (fun _ => "")
       Cases.args_text
  = {| out := display_stats Samples.stats_5_2_3 "text"; err := ""; exit_code := 0 |}.
Proof.
  refine (eq_trans
            (main_report Cases.git_repo (fun s => s) (fun p => p)
               Cases.repo_exists (fun _ => "") Cases.args_text 5
               ["a@x.org"; "b@x.org"; "a@x.org"]
               ["* main"; "  dev"; "  remotes/origin/main"]
               _ _ _ _ _ _ _ _ _ _) _);
    try (vm_compute; reflexivity).
  - vm_compute. lia.
  - discriminate.
  - repeat constructor; discriminate.
  - repeat constructor.
  - repeat constructor.
Defined.

End ReportRuns.

(** ** The document written and more runs *)

Section Document.
Import DataProcessor DataProcessorCli.

(** X20. The document a conversion writes is an object with the keys
    [data], [count] and [source] in this order: the rows, their number,
    and the input path in the form [pathlib] gives it; the text does not
    end with a line feed. *)
Theorem process_csv_document input_file o w result w' :
  o ≠ "" ->
  process_csv input_file (Some o) w = (Py.Ok result, w') ->
  files w' !! PathLib.str (PathLib.parse o)
  = Some ("{" +:+ Py.nl
          +:+ "  " +:+ Json.encode_str "data" +:+ ": "
          +:+ Json.encode 1 (Json.JList (row_json <$> data result)) +:+ ","
          +:+ Py.nl
          +:+ "  " +:+ Json.encode_str "count" +:+ ": "
          +:+ Py.str_of_int (Z.of_nat (length (data result))) +:+ ","
          +:+ Py.nl
          +:+ "  " +:+ Json.encode_str "source" +:+ ": "
          +:+ Json.encode_str (PathLib.str (PathLib.parse input_file))
          +:+ Py.nl +:+ "}").
Proof.
  intros Ho Hrun.
  destruct (process_csv_ok_inv _ _ _ _ _ Hrun)
    as (content & Hfile & Hsuf & Hdata & Hcount & Hsource).
  rewrite (process_csv_read _ _ _ content Hfile Hsuf), Hdata in Hrun.
  assert (truthy (Some o) = Some o) as Htruthy by (by destruct o).
  rewrite Htruthy in Hrun. cbv zeta in Hrun. injection Hrun as Hresult <-.
  simpl. rewrite lookup_insert_eq. f_equal.
  unfold Json.dumps, result_json. simpl.
  rewrite !app_assoc_str. reflexivity.
Qed.

Lemma process_csv_document_witness :
  exists text,
    files (snd (process_csv "t.csv" (Some "out/t.json")
                            (Samples.world_with "t.csv" Samples.csv_header_only)))
    !! "out/t.json" = Some text
    /\ text = "{" +:+ Py.nl
              +:+ "  " +:+ Json.encode_str "data" +:+ ": [],"
              +:+ Py.nl
              +:+ "  " +:+ Json.encode_str "count" +:+ ": 0,"
              +:+ Py.nl
              +:+ "  " +:+ Json.encode_str "source" +:+ ": "
              +:+ Json.encode_str "t.csv"
              +:+ Py.nl +:+ "}".
Proof.
  eexists. split; [|reflexivity].
  pose (w := Samples.world_with "t.csv" Samples.csv_header_only).
  pose (result := {| data := []; count := 0; source := "t.csv" |}).
  refine (eq_trans
            (process_csv_document "t.csv" "out/t.json" w result
               (snd (process_csv "t.csv" (Some "out/t.json") w)) _ _) _).
  - discriminate.
  - vm_compute. reflexivity.
  - vm_compute. reflexivity.
Defined.

Lemma script_usage_witness :
  script ["data_processor.py"] (Samples.world_with "t.csv" Samples.csv_two_rows)
  = ({| out := Py.print "Usage: python data_processor.py input.csv [output.json]";
        exit_code := 2 |},
     Samples.world_with "t.csv" Samples.csv_two_rows).
Proof.
  apply (proj2 (script_usage ["data_processor.py"]
                  (Samples.world_with "t.csv" Samples.csv_two_rows))).
  simpl. lia.
Defined.

Lemma script_success_witness :
  exit_code (fst (script ["data_processor.py"; "t.csv"; "out/t.json"; "more"]
                         (Samples.world_with "t.csv" Samples.csv_two_rows)))
  = 0%Z
  /\ out (fst (script ["data_processor.py"; "t.csv"; "out/t.json"; "more"]
                      (Samples.world_with "t.csv" Samples.csv_two_rows)))
     = Py.print "Processed 2 records".
Proof.
  split; [reflexivity|].
  destruct (process_csv "t.csv" (head ["out/t.json"; "more"])
                        (Samples.world_with "t.csv" Samples.csv_two_rows))
    as [[result|e] w'] eqn:Hrun; [|vm_compute in Hrun; discriminate].
  destruct (proj2 (script_success
                     ["data_processor.py"; "t.csv"; "out/t.json"; "more"]
                     (Samples.world_with "t.csv" Samples.csv_two_rows))
                  "data_processor.py" "t.csv" ["out/t.json"; "more"] result w'
                  eq_refl Hrun)
    as (content & Hfile & Hrows & Hscript).
  assert (content = Samples.csv_two_rows) as ->
    by (vm_compute in Hfile; injection Hfile as <-; reflexivity).
  assert (length (data result) = 2) as Hlen.
  { assert (Csv.DictReader (Py.readlines Samples.csv_two_rows)
            = Py.Ok [ [(Some "a", Csv.Str "1"); (Some "b", Csv.Str "2")];
                      [(Some "a", Csv.Str "3"); (Some "b", Csv.Str "4")] ]) as Hcalc
      by (vm_compute; reflexivity).
    rewrite Hcalc in Hrows. by injection Hrows as <-. }
  rewrite Hscript, Hlen. reflexivity.
Defined.

End Document.

Section MainRuns.
Import GitStats GitStatsCli.

Lemma main_exit_code_witness :
  exit_code (main Cases.git_repo (fun s => s) (fun p => p) Cases.repo_exists
                  (fun _ => "") Cases.args_text) = 0%Z
  /\ exit_code (main Cases.git_fails (fun s => s) (fun p => p) Cases.repo_exists
                     (fun _ => "") Cases.args_text) = 1%Z.
Proof.
  split.
  - destruct (main_exit_code Cases.git_repo (fun s => s) (fun p => p)
                Cases.repo_exists (fun _ => "") Cases.args_text)
      as [(Hcode & _)|(Hcode & _)]; [exact Hcode|].
    vm_compute in Hcode. discriminate.
  - destruct (main_exit_code Cases.git_fails (fun s => s) (fun p => p)
                Cases.repo_exists (fun _ => "") Cases.args_text)
      as [(Hcode & _)|(Hcode & _)]; [|exact Hcode].
    vm_compute in Hcode. discriminate.
Defined.

End MainRuns.
